(** * The entry point of the question-answering system ([code/main.py])

  A shallow embedding of [initialize_model] and [main], the execution
  controller that dispatches on [FLAGS.mode] (train / show_examples /
  official_eval), and the properties of it that the design document
  states.

  The controller is a sequence of calls into collaborators: the model
  ([qa_model.py]), the vocabulary loader ([vocab.py]), the evaluation
  helpers ([official_eval_helper.py]), TensorFlow, [os], [io] and
  [json].  A run is modelled in a state-and-exception monad whose state
  holds the mutable [FLAGS] object, an abstract world on which the
  collaborators act, and the chronological trace of the calls made.
  Collaborators are taken to return; the exceptions of the controller
  itself ([raise], [assert], the text encoder of the output file) are
  modelled. *)

From Stdlib Require Import ZArith QArith String Ascii DecimalString.
From stdpp Require Import base option list gmap strings.

Open Scope Z_scope.
Open Scope string_scope.

(** ** Python values used by the controller *)

Module Py.

(** [str(i)], ["%d" % i], ["%i" % i] and ["{}".format(i)] on an int. *)
Definition str_of_int (i : Z) : string :=
  NilZero.string_of_int (Z.to_int i).

(** Truthiness of a [str]: the empty string is false. *)
Definition truthy (s : string) : bool :=
  match s with EmptyString => false | String _ _ => true end.

(** [a or b] on strings. *)
Definition or_else (a b : string) : string :=
  if truthy a then a else b.

(** [s.startswith("/")]. *)
Definition starts_with_sep (s : string) : bool :=
  match s with
  | String c _ => bool_decide (c = "/"%char)
  | EmptyString => false
  end.

(** [s.endswith("/")]. *)
Fixpoint ends_with_sep (s : string) : bool :=
  match s with
  | EmptyString => false
  | String c EmptyString => bool_decide (c = "/"%char)
  | String _ rest => ends_with_sep rest
  end.

(** [os.path.join(a, b)] of [posixpath]. *)
Definition os_path_join (a b : string) : string :=
  if starts_with_sep b then b
  else if negb (truthy a) || ends_with_sep a then a ++ b
  else a ++ "/" ++ b.

(** [s[:-1]]: the string without its last character. *)
Fixpoint drop_last (s : string) : string :=
  match s with
  | EmptyString => EmptyString
  | String _ EmptyString => EmptyString
  | String c rest => String c (drop_last rest)
  end.

(** A [str] holding arbitrary text is a sequence of code points. *)
Abbreviation text := (list N).

(** A [dict] from [str] to [str], in insertion order. *)
Abbreviation dict := (list (list N * list N)).

(** [d.keys()]. *)
Definition keys (d : dict) : list text := d.*1.

(** [d[k] = v]: an existing key keeps its position. *)
Fixpoint dict_set (k v : text) (d : dict) : dict :=
  match d with
  | [] => [(k, v)]
  | (k', v') :: rest =>
      if decide (k = k') then (k, v) :: rest
      else (k', v') :: dict_set k v rest
  end.

End Py.

(** ** The command-line flags *)

Module FLAGS.

Record t := mk {
  gpu : Z;
  mode : string;
  experiment_name : string;
  num_epochs : Z;
  learning_rate : Q;
  max_gradient_norm : Q;
  dropout : Q;
  batch_size : Z;
  hidden_size : Z;
  context_len : Z;
  question_len : Z;
  embedding_size : Z;
  share_LSTM_weights : bool;
  max_word_size : Z;
  elmo_embedding_max_token_size : Z;
  pos_embedding_size : Z;
  ne_embedding_size : Z;
  char_embedding_size : Z;
  num_of_char : Z;
  load_ema_checkpoint : bool;
  single_ensemble : string;
  print_every : Z;
  save_every : Z;
  eval_every : Z;
  keep : Z;
  train_dir : string;
  glove_path : string;
  data_dir : string;
  ckpt_load_dir : string;
  json_in_path : string;
  json_out_path : string;
  main_dir : string
}.

(** [FLAGS.train_dir = v]. *)
Definition set_train_dir (v : string) (f : t) : t :=
  mk (gpu f) (mode f) (experiment_name f) (num_epochs f) (learning_rate f)
     (max_gradient_norm f) (dropout f) (batch_size f) (hidden_size f)
     (context_len f) (question_len f) (embedding_size f)
     (share_LSTM_weights f) (max_word_size f)
     (elmo_embedding_max_token_size f) (pos_embedding_size f)
     (ne_embedding_size f) (char_embedding_size f) (num_of_char f)
     (load_ema_checkpoint f) (single_ensemble f) (print_every f)
     (save_every f) (eval_every f) (keep f) v (glove_path f) (data_dir f)
     (ckpt_load_dir f) (json_in_path f) (json_out_path f) (main_dir f).

(** [FLAGS.glove_path = v]. *)
Definition set_glove_path (v : string) (f : t) : t :=
  mk (gpu f) (mode f) (experiment_name f) (num_epochs f) (learning_rate f)
     (max_gradient_norm f) (dropout f) (batch_size f) (hidden_size f)
     (context_len f) (question_len f) (embedding_size f)
     (share_LSTM_weights f) (max_word_size f)
     (elmo_embedding_max_token_size f) (pos_embedding_size f)
     (ne_embedding_size f) (char_embedding_size f) (num_of_char f)
     (load_ema_checkpoint f) (single_ensemble f) (print_every f)
     (save_every f) (eval_every f) (keep f) (train_dir f) v (data_dir f)
     (ckpt_load_dir f) (json_in_path f) (json_out_path f) (main_dir f).

(** The defaults of the [tf.app.flags.DEFINE_*] declarations, for a given
    [MAIN_DIR] (the relative path of the repository's main directory). *)
Definition defaults (MAIN_DIR : string) : t :=
  mk 0 "train" "" 0 (1 # 1000) 5 (2 # 10) 100 100 400 30 300 true 40 60
     10 10 16 262 true "" 1 500 500 1 "" ""
     (Py.os_path_join MAIN_DIR "data") "" "" "predictions.json" MAIN_DIR.

End FLAGS.

(** ** Collaborators

    Everything [main] calls and that lives outside [main.py].  Each call
    acts on an abstract world; pure queries only read it. *)

(** The parallel sequences returned by [get_json_data]: question uuids,
    tokenised contexts, tokenised questions. *)
Definition Batch (Contexts Questions : Type) : Type :=
  (list Py.text * Contexts * Questions)%type.

(** A tag-to-id table ([pos_tag_id_map], [ne_tag_id_map]). *)
Abbreviation TagMap := (gmap string Z).

Class Collaborators := {
  World : Type;
  EmbMatrix : Type;
  Word2Id : Type;
  Id2Word : Type;
  Model : Type;
  Session : Type;
  BatcherT : Type;
  Contexts : Type;
  Questions : Type;
  Records : Type;
  (* the interpreter and the module-level constants *)
  sys_version_major : Z;
  tf_version : string;
  MAIN_DIR : string;
  str_of_argv : list string → string;
  (* vocab.py, qa_model.py *)
  get_glove : string → Z → World → (EmbMatrix * Word2Id * Id2Word) * World;
  QAModel : FLAGS.t → Id2Word → Word2Id → EmbMatrix → World → Model * World;
  qa_model_train :
    Model → Session → string → string → string → string → string → string →
    World → World;
  qa_model_check_f1_em :
    Model → Session → string → string → string → string → Z → bool →
    World → World;
  (* official_eval_helper.py, bilm *)
  get_json_data : string → World → Batch Contexts Questions * World;
  Batcher : string → Z → World → BatcherT * World;
  generate_answers :
    Session → Model → Word2Id → Batch Contexts Questions → BatcherT →
    TagMap → TagMap → World → Py.dict * World;
  generate_partial_answers :
    Session → Model → Word2Id → Batch Contexts Questions → BatcherT →
    TagMap → TagMap → World → Records * World;
  generate_ensemble_answers :
    Model → Word2Id → Batch Contexts Questions → BatcherT →
    TagMap → TagMap → list Records → World → Py.dict * World;
  (* tensorflow *)
  tf_Session : World → Session * World;
  tf_Session_exit : Session → World → World;
  tf_train_get_checkpoint_state : string → World → option string;
  tf_gfile_Exists : string → World → bool;
  ema_restorer_restore : Model → Session → string → World → World;
  model_saver_restore : Model → Session → string → World → World;
  run_global_variables_initializer : Session → World → World;
  trainable_variables_num_elements : World → list Z;
  (* os, logging, io, json *)
  os_path_exists : string → World → bool;
  os_makedirs : string → World → World;
  logging_add_file_handler : string → World → World;
  json_dump_flags : string → FLAGS.t → World → World;
  open_readlines : string → World → list string;
  io_open_w : string → World → World;
  file_write : string → list N → World → World
}.

(** [DEFAULT_DATA_DIR] and [EXPERIMENTS_DIR]. *)
Definition DEFAULT_DATA_DIR `{C : Collaborators} : string :=
  Py.os_path_join MAIN_DIR "data".

Definition EXPERIMENTS_DIR `{C : Collaborators} : string :=
  Py.os_path_join MAIN_DIR "experiments".

(** ** Exceptions, events and the run monad *)

Inductive exn :=
| Exception (msg : string)
| AssertionError
| UnicodeEncodeError.

Inductive event `{C : Collaborators} :=
| Stdout (msg : string)
| Get_glove (glove_path : string) (dim : Z)
| New_QAModel (flags : FLAGS.t) (model : Model)
| Os_makedirs (path : string)
| Logging_add_file_handler (path : string)
| Json_dump_flags (path : string) (flags : FLAGS.t)
| Session_enter (sess : Session)
| Session_exit (sess : Session)
| Get_checkpoint_state (dir : string)
| Restore_ema (sess : Session) (ckpt_path : string)
| Restore_raw (sess : Session) (ckpt_path : string)
| Run_global_variables_initializer (sess : Session)
| Train (sess : Session)
| Check_f1_em (sess : Session)
| Open_readlines (path : string)
| Get_json_data (path : string) (batch : Batch Contexts Questions)
| New_Batcher (vocab_path : string) (max_word_size : Z) (batcher : BatcherT)
| Generate_answers (sess : Session) (batch : Batch Contexts Questions)
    (batcher : BatcherT) (pos ne : TagMap) (answers : Py.dict)
| Generate_partial_answers (sess : Session)
    (batch : Batch Contexts Questions) (batcher : BatcherT)
    (pos ne : TagMap) (records : Records)
| Generate_ensemble_answers (batch : Batch Contexts Questions)
    (batcher : BatcherT) (pos ne : TagMap) (partial_answers : list Records)
    (answers : Py.dict)
| Io_open_w (path : string)
| File_write (path : string) (bytes : list N).

Record State `{C : Collaborators} := mkState {
  st_flags : FLAGS.t;
  st_world : World;
  st_trace : list event
}.

Definition M `{C : Collaborators} (A : Type) : Type := State → (exn + A) * State.

Section Monad.
Context `{C : Collaborators}.

Definition ret {A} (a : A) : M A := λ s, (inr a, s).

Definition bind {A B} (m : M A) (k : A → M B) : M B :=
  λ s, match m s with
       | (inr a, s') => k a s'
       | (inl e, s') => (inl e, s')
       end.

Definition raise {A} (e : exn) : M A := λ s, (inl e, s).

(** [try: body finally: cleanup], for a cleanup that returns. *)
Definition finally {A} (body : M A) (cleanup : M unit) : M A :=
  λ s, match body s with
       | (r, s') => match cleanup s' with
                    | (inr _, s'') => (r, s'')
                    | (inl e, s'') => (inl e, s'')
                    end
       end.

Definition get_flags : M FLAGS.t := λ s, (inr (st_flags s), s).

Definition set_flags (f : FLAGS.t) : M unit :=
  λ s, (inr tt, mkState _ f (st_world s) (st_trace s)).

Definition log (ev : event) : M unit :=
  λ s, (inr tt, mkState _ (st_flags s) (st_world s) (st_trace s ++ [ev])).

(** A pure query of the world. *)
Definition query {A} (q : World → A) : M A := λ s, (inr (q (st_world s)), s).

(** A collaborator call that returns a value. *)
Definition call {A} (c : World → A * World) : M A :=
  λ s, (inr (c (st_world s)).1,
        mkState _ (st_flags s) (c (st_world s)).2 (st_trace s)).

(** A collaborator call made for its effect. *)
Definition effect (c : World → World) : M unit :=
  λ s, (inr tt, mkState _ (st_flags s) (c (st_world s)) (st_trace s)).

End Monad.

Notation "'let*' x ':=' m 'in' k" := (bind m (λ x, k))
  (at level 10, x pattern, m at level 100, k at level 200).
Notation "m ;; k" := (bind m (λ _, k))
  (at level 100, k at level 200, right associativity).

(** ** Instrumented call sites

    Each collaborator call records itself in the trace. *)

Section Calls.
Context `{C : Collaborators}.

Definition print (msg : string) : M unit := log (Stdout msg).

Definition call_get_glove (path : string) (dim : Z)
  : M (EmbMatrix * Word2Id * Id2Word) :=
  log (Get_glove path dim) ;; call (get_glove path dim).

Definition new_QAModel (flags : FLAGS.t) (id2word : Id2Word)
    (word2id : Word2Id) (emb_matrix : EmbMatrix) : M Model :=
  let* m := call (QAModel flags id2word word2id emb_matrix) in
  log (New_QAModel flags m) ;; ret m.

Definition makedirs (path : string) : M unit :=
  log (Os_makedirs path) ;; effect (os_makedirs path).

(** [if not os.path.exists(path): os.makedirs(path)]. *)
Definition makedirs_if_missing (path : string) : M unit :=
  let* present := query (os_path_exists path) in
  if present then ret tt else makedirs path.

Definition add_file_handler (path : string) : M unit :=
  log (Logging_add_file_handler path) ;;
  effect (logging_add_file_handler path).

Definition dump_flags (path : string) : M unit :=
  let* flags := get_flags in
  log (Json_dump_flags path flags) ;; effect (json_dump_flags path flags).

(** [with tf.Session(config=config) as sess: body]: the session is
    released whether [body] returns or raises. *)
Definition with_session {A} (body : Session → M A) : M A :=
  let* sess := call tf_Session in
  log (Session_enter sess) ;;
  finally (body sess)
          (log (Session_exit sess) ;; effect (tf_Session_exit sess)).

Definition get_checkpoint_state (dir : string) : M (option string) :=
  log (Get_checkpoint_state dir) ;;
  query (tf_train_get_checkpoint_state dir).

Definition restore_ema (model : Model) (sess : Session) (path : string)
  : M unit :=
  log (Restore_ema sess path) ;; effect (ema_restorer_restore model sess path).

Definition restore_raw (model : Model) (sess : Session) (path : string)
  : M unit :=
  log (Restore_raw sess path) ;; effect (model_saver_restore model sess path).

Definition global_variables_initializer (sess : Session) : M unit :=
  log (Run_global_variables_initializer sess) ;;
  effect (run_global_variables_initializer sess).

(** [qa_model.train(...)].  The call is taken to return, as every
    collaborator call is; the real one returns only when
    [FLAGS.num_epochs] is positive, and with [num_epochs = 0], the
    default, trains until it is interrupted.  What a statement says of a
    run after its [Train] event holds of the runs in which the call
    returns. *)
Definition train (model : Model) (sess : Session)
    (train_context_path train_qn_path train_ans_path
     dev_qn_path dev_context_path dev_ans_path : string) : M unit :=
  log (Train sess) ;;
  effect (qa_model_train model sess train_context_path train_qn_path
            train_ans_path dev_qn_path dev_context_path dev_ans_path).

Definition check_f1_em (model : Model) (sess : Session)
    (context_path qn_path ans_path dataset : string) (num_samples : Z)
    (print_to_screen : bool) : M unit :=
  log (Check_f1_em sess) ;;
  effect (qa_model_check_f1_em model sess context_path qn_path ans_path
            dataset num_samples print_to_screen).

Definition readlines (path : string) : M (list string) :=
  log (Open_readlines path) ;; query (open_readlines path).

Definition call_get_json_data (path : string)
  : M (Batch Contexts Questions) :=
  let* b := call (get_json_data path) in
  log (Get_json_data path b) ;; ret b.

Definition new_Batcher (vocab_path : string) (max_word_size : Z)
  : M BatcherT :=
  let* b := call (Batcher vocab_path max_word_size) in
  log (New_Batcher vocab_path max_word_size b) ;; ret b.

Definition call_generate_answers (sess : Session) (model : Model)
    (word2id : Word2Id) (batch : Batch Contexts Questions)
    (batcher : BatcherT) (pos ne : TagMap) : M Py.dict :=
  let* d := call (generate_answers sess model word2id batch batcher pos ne) in
  log (Generate_answers sess batch batcher pos ne d) ;; ret d.

Definition call_generate_partial_answers (sess : Session) (model : Model)
    (word2id : Word2Id) (batch : Batch Contexts Questions)
    (batcher : BatcherT) (pos ne : TagMap) : M Records :=
  let* r := call (generate_partial_answers sess model word2id batch batcher
                    pos ne) in
  log (Generate_partial_answers sess batch batcher pos ne r) ;; ret r.

Definition call_generate_ensemble_answers (model : Model)
    (word2id : Word2Id) (batch : Batch Contexts Questions)
    (batcher : BatcherT) (pos ne : TagMap) (partial_answers : list Records)
  : M Py.dict :=
  let* d := call (generate_ensemble_answers model word2id batch batcher
                    pos ne partial_answers) in
  log (Generate_ensemble_answers batch batcher pos ne partial_answers d) ;;
  ret d.

End Calls.

(** ** [json.dumps(d, ensure_ascii=False)] and the UTF-8 text encoder

    The two library functions that decide the bytes of the output file, on
    the values [main] gives them: a [dict] from [str] to [str]. *)

Module Json.

Local Close Scope string_scope.
Local Open Scope N_scope.

(** An ASCII literal as text. *)
Definition lit (s : string) : Py.text :=
  N_of_ascii <$> list_ascii_of_string s.

(** A lower-case hexadecimal digit. *)
Definition hex_digit (d : N) : N :=
  if d <? 10 then 48 + d else 97 + (d - 10).

(** The replacement of one character in a JSON string when
    [ensure_ascii] is off: the quote, the backslash and the control
    characters below U+0020 are escaped, every other character is kept. *)
Definition escape_char (c : N) : Py.text :=
  if c =? 34 then [92; 34]
  else if c =? 92 then lit "\\"
  else if c =? 8 then lit "\b"
  else if c =? 12 then lit "\f"
  else if c =? 10 then lit "\n"
  else if c =? 13 then lit "\r"
  else if c =? 9 then lit "\t"
  else if c <? 32 then lit "\u00" ++ [hex_digit (c / 16); hex_digit (c mod 16)]
  else [c].

(** [py_encode_basestring]: a JSON string literal. *)
Definition encode_basestring (s : Py.text) : Py.text :=
  [34] ++ (s ≫= escape_char) ++ [34].

(** One [key: value] member. *)
Definition encode_item (kv : Py.text * Py.text) : Py.text :=
  encode_basestring kv.1 ++ lit ": " ++ encode_basestring kv.2.

(** [", ".join(items)]. *)
Fixpoint join_items (items : list Py.text) : Py.text :=
  match items with
  | [] => []
  | [x] => x
  | x :: rest => x ++ lit ", " ++ join_items rest
  end.

(** [json.dumps(d, ensure_ascii=False)]. *)
Definition dumps (d : Py.dict) : Py.text :=
  lit "{" ++ join_items (encode_item <$> d) ++ lit "}".

(** The UTF-8 encoding of one code point; surrogates (and values beyond
    U+10FFFF, which no [str] holds) have none. *)
Definition utf8_encode_char (c : N) : option (list N) :=
  if c <? 0x80 then Some [c]
  else if c <? 0x800 then
    Some [N.lor 0xC0 (N.shiftr c 6); N.lor 0x80 (N.land c 0x3F)]
  else if c <? 0x10000 then
    if (0xD800 <=? c) && (c <? 0xE000) then None
    else Some [N.lor 0xE0 (N.shiftr c 12);
               N.lor 0x80 (N.land (N.shiftr c 6) 0x3F);
               N.lor 0x80 (N.land c 0x3F)]
  else if c <? 0x110000 then
    Some [N.lor 0xF0 (N.shiftr c 18);
          N.lor 0x80 (N.land (N.shiftr c 12) 0x3F);
          N.lor 0x80 (N.land (N.shiftr c 6) 0x3F);
          N.lor 0x80 (N.land c 0x3F)]
  else None.

(** [s.encode("utf-8")] under [errors="strict"]: [None] stands for
    [UnicodeEncodeError]. *)
Definition utf8_encode (s : Py.text) : option (list N) :=
  (λ chunks : list (list N), concat chunks) <$> mapM utf8_encode_char s.

End Json.

(** ** [initialize_model] *)

Section Controller.
Context `{C : Collaborators}.

(** The [else] branch of [initialize_model]: no checkpoint was found. *)
Definition no_checkpoint (session : Session) (train_dir : string)
    (expect_exists : bool) : M unit :=
  if expect_exists then
    raise (Exception ("There is no saved checkpoint at " ++ train_dir))
  else
    print ("There is no saved checkpoint at " ++ train_dir
           ++ ". Creating model with fresh parameters.") ;;
    global_variables_initializer session ;;
    let* sizes := query trainable_variables_num_elements in
    print ("Num params: " ++ Py.str_of_int (foldr Z.add 0 sizes)).

Definition initialize_model (session : Session) (model : Model)
    (train_dir : string) (expect_exists : bool) : M unit :=
  print ("Looking for model at " ++ train_dir ++ "...") ;;
  let* ckpt := get_checkpoint_state train_dir in
  match ckpt with
  | Some model_checkpoint_path =>
      let v2_path := model_checkpoint_path ++ ".index" in
      let* exists_v1 := query (tf_gfile_Exists model_checkpoint_path) in
      let* exists_v2 := query (tf_gfile_Exists v2_path) in
      if exists_v1 || exists_v2 then
        print ("Reading model parameters from " ++ model_checkpoint_path) ;;
        let* FLAGS := get_flags in
        if FLAGS.load_ema_checkpoint FLAGS then
          restore_ema model session model_checkpoint_path
        else
          restore_raw model session model_checkpoint_path
      else no_checkpoint session train_dir expect_exists
  | None => no_checkpoint session train_dir expect_exists
  end.

(** ** [main] *)

(** [pos_tag_id_map[pos_tag_lines[i][:-1]] = i + 1] for [i] in
    [range(len(pos_tag_lines))]. *)
Definition build_pos_tag_id_map (pos_tag_lines : list string) : TagMap :=
  foldl (λ (m : TagMap) '(i, line), <[Py.drop_last line := Z.of_nat i + 1]> m)
        ∅ (zip (seq 0 (length pos_tag_lines)) pos_tag_lines).

Definition all_NE_tag : list string :=
  ["B-FACILITY"; "B-GPE"; "B-GSP"; "B-LOCATION"; "B-ORGANIZATION";
   "B-PERSON"; "I-FACILITY"; "I-GPE"; "I-GSP"; "I-LOCATION";
   "I-ORGANIZATION"; "I-PERSON"; "O"].

(** [ne_tag_id_map[all_NE_tag[i]] = i + 1] for [i] in
    [range(len(all_NE_tag))]. *)
Definition build_ne_tag_id_map : TagMap :=
  foldl (λ (m : TagMap) '(i, tag), <[tag := Z.of_nat i + 1]> m)
        ∅ (zip (seq 0 (length all_NE_tag)) all_NE_tag).

Definition num_base_models : Z := 7.

(** [checkpoint_dirs], the directories of the base models. *)
Definition checkpoint_dirs (ckpt_load_dir : string) : list string :=
  (λ i, Py.os_path_join ckpt_load_dir
          ("ema_best_checkpoint_" ++ Py.str_of_int i))
  <$> seqZ 1 num_base_models.

(** The tail of both official_eval branches: the uuid-to-answer mapping is
    serialised and written to [FLAGS.json_out_path], opened for writing
    with [encoding='utf-8']. *)
Definition write_predictions (answers : Py.dict) : M unit :=
  let* FLAGS := get_flags in
  print ("Writing predictions to " ++ FLAGS.json_out_path FLAGS ++ "...") ;;
  log (Io_open_w (FLAGS.json_out_path FLAGS)) ;;
  effect (io_open_w (FLAGS.json_out_path FLAGS)) ;;
  match Json.utf8_encode (Json.dumps answers) with
  | Some bytes =>
      log (File_write (FLAGS.json_out_path FLAGS) bytes) ;;
      effect (file_write (FLAGS.json_out_path FLAGS) bytes) ;;
      print ("Wrote predictions to " ++ FLAGS.json_out_path FLAGS)
  | None => raise UnicodeEncodeError
  end.

(** One iteration of [for base_model_dir in checkpoint_dirs]. *)
Definition ensemble_pass (qa_model : Model) (word2id : Word2Id)
    (pos_tag_id_map ne_tag_id_map : TagMap) (base_model_dir : string)
  : M Records :=
  let* FLAGS := get_flags in
  let* batch := call_get_json_data (FLAGS.json_in_path FLAGS) in
  let* batcher := new_Batcher (Py.os_path_join (FLAGS.data_dir FLAGS)
                                 "elmo_voca.txt")
                              (FLAGS.max_word_size FLAGS) in
  with_session (λ sess,
    initialize_model sess qa_model base_model_dir true ;;
    call_generate_partial_answers sess qa_model word2id batch batcher
      pos_tag_id_map ne_tag_id_map).

(** The loop over [checkpoint_dirs], appending to [partial_answers]. *)
Fixpoint ensemble_passes (qa_model : Model) (word2id : Word2Id)
    (pos_tag_id_map ne_tag_id_map : TagMap) (dirs : list string)
    (partial_answers : list Records) : M (list Records) :=
  match dirs with
  | [] => ret partial_answers
  | base_model_dir :: rest =>
      let* r := ensemble_pass qa_model word2id pos_tag_id_map ne_tag_id_map
                  base_model_dir in
      ensemble_passes qa_model word2id pos_tag_id_map ne_tag_id_map rest
        (partial_answers ++ [r])
  end.

(** The branch [FLAGS.single_ensemble == "ensemble"]. *)
Definition official_eval_ensemble (qa_model : Model) (word2id : Word2Id)
    (pos_tag_id_map ne_tag_id_map : TagMap) : M unit :=
  let* FLAGS := get_flags in
  let* partial_answers :=
    ensemble_passes qa_model word2id pos_tag_id_map ne_tag_id_map
      (checkpoint_dirs (FLAGS.ckpt_load_dir FLAGS)) [] in
  let* batch := call_get_json_data (FLAGS.json_in_path FLAGS) in
  let* batcher := new_Batcher (Py.os_path_join (FLAGS.data_dir FLAGS)
                                 "elmo_voca.txt")
                              (FLAGS.max_word_size FLAGS) in
  let* ensemble_answer_dict :=
    call_generate_ensemble_answers qa_model word2id batch batcher
      pos_tag_id_map ne_tag_id_map partial_answers in
  write_predictions ensemble_answer_dict.

(** The [else] branch: the original official_eval code. *)
Definition official_eval_single (qa_model : Model) (word2id : Word2Id)
    (pos_tag_id_map ne_tag_id_map : TagMap) : M unit :=
  let* FLAGS := get_flags in
  if bool_decide (FLAGS.single_ensemble FLAGS = "single") then
    let* batcher := new_Batcher (Py.os_path_join (FLAGS.data_dir FLAGS)
                                   "elmo_voca.txt")
                                (FLAGS.max_word_size FLAGS) in
    let* batch := call_get_json_data (FLAGS.json_in_path FLAGS) in
    with_session (λ sess,
      let checkpoint_dir :=
        Py.os_path_join (FLAGS.ckpt_load_dir FLAGS) "ema_best_checkpoint_1" in
      initialize_model sess qa_model checkpoint_dir true ;;
      let* answers_dict :=
        call_generate_answers sess qa_model word2id batch batcher
          pos_tag_id_map ne_tag_id_map in
      write_predictions answers_dict)
  else raise AssertionError.

(** The branch [FLAGS.mode == "official_eval"]. *)
Definition official_eval (qa_model : Model) (word2id : Word2Id) : M unit :=
  let* FLAGS := get_flags in
  if bool_decide (FLAGS.json_in_path FLAGS = "") then
    raise (Exception
             "For official_eval mode, you need to specify --json_in_path")
  else if bool_decide (FLAGS.ckpt_load_dir FLAGS = "") then
    raise (Exception
             "For official_eval mode, you need to specify --ckpt_load_dir")
  else
    let* pos_tag_lines :=
      readlines (Py.os_path_join (FLAGS.main_dir FLAGS) "pos_tags.txt") in
    let pos_tag_id_map := build_pos_tag_id_map pos_tag_lines in
    let ne_tag_id_map := build_ne_tag_id_map in
    if bool_decide (FLAGS.single_ensemble FLAGS = "ensemble") then
      official_eval_ensemble qa_model word2id pos_tag_id_map ne_tag_id_map
    else
      official_eval_single qa_model word2id pos_tag_id_map ne_tag_id_map.

(** The branch [FLAGS.mode == "show_examples"]. *)
Definition show_examples (qa_model : Model)
    (bestmodel_dir ema_bestmodel_dir : string)
    (dev_context_path dev_qn_path dev_ans_path : string) : M unit :=
  with_session (λ sess,
    let* FLAGS := get_flags in
    (if FLAGS.load_ema_checkpoint FLAGS then
       initialize_model sess qa_model ema_bestmodel_dir true
     else
       initialize_model sess qa_model bestmodel_dir true) ;;
    check_f1_em qa_model sess dev_context_path dev_qn_path dev_ans_path
      "dev" 10 true).

(** The branch [FLAGS.mode == "train"]. *)
Definition train_mode (qa_model : Model)
    (bestmodel_dir ema_bestmodel_dir : string)
    (train_context_path train_qn_path train_ans_path
     dev_context_path dev_qn_path dev_ans_path : string) : M unit :=
  let* FLAGS := get_flags in
  makedirs_if_missing (FLAGS.train_dir FLAGS) ;;
  add_file_handler (Py.os_path_join (FLAGS.train_dir FLAGS) "log.txt") ;;
  dump_flags (Py.os_path_join (FLAGS.train_dir FLAGS) "flags.json") ;;
  makedirs_if_missing bestmodel_dir ;;
  makedirs_if_missing ema_bestmodel_dir ;;
  with_session (λ sess,
    initialize_model sess qa_model (FLAGS.train_dir FLAGS) false ;;
    train qa_model sess train_context_path train_qn_path train_ans_path
      dev_qn_path dev_context_path dev_ans_path).

(** Lines 135-137: the check on the experiment name and the default of
    [FLAGS.train_dir]. *)
Definition define_train_dir : M unit :=
  let* FLAGS := get_flags in
  if negb (Py.truthy (FLAGS.experiment_name FLAGS))
     && negb (Py.truthy (FLAGS.train_dir FLAGS))
     && bool_decide (FLAGS.mode FLAGS ≠ "official_eval")
  then
    raise (Exception
             "You need to specify either --experiment_name or --train_dir")
  else
    set_flags (FLAGS.set_train_dir
                 (Py.or_else (FLAGS.train_dir FLAGS)
                    (Py.os_path_join EXPERIMENTS_DIR
                       (FLAGS.experiment_name FLAGS)))
                 FLAGS).

Definition main (unused_argv : list string) : M unit :=
  if bool_decide (length unused_argv ≠ 1%nat) then
    raise (Exception ("There is a problem with how you entered flags: "
                      ++ str_of_argv unused_argv))
  else if bool_decide (sys_version_major ≠ 3) then
    raise (Exception
             ("ERROR: You must use Python 3 but you are running Python "
              ++ Py.str_of_int sys_version_major))
  else
    print ("This code was developed and tested on TensorFlow 1.4.1. "
           ++ "Your TensorFlow version: " ++ tf_version) ;;
    define_train_dir ;;
    let* FLAGS := get_flags in
    let bestmodel_dir :=
      Py.os_path_join (FLAGS.train_dir FLAGS) "best_checkpoint" in
    let ema_bestmodel_dir :=
      Py.os_path_join (FLAGS.train_dir FLAGS) "ema_best_checkpoint" in
    set_flags (FLAGS.set_glove_path
                 (Py.or_else (FLAGS.glove_path FLAGS)
                    (Py.os_path_join DEFAULT_DATA_DIR
                       ("glove.42B."
                        ++ Py.str_of_int (FLAGS.embedding_size FLAGS)
                        ++ "d.txt")))
                 FLAGS) ;;
    let* FLAGS := get_flags in
    let* (emb_matrix, word2id, id2word) :=
      call_get_glove (FLAGS.glove_path FLAGS) (FLAGS.embedding_size FLAGS) in
    let train_context_path :=
      Py.os_path_join (FLAGS.data_dir FLAGS) "train.context" in
    let train_qn_path :=
      Py.os_path_join (FLAGS.data_dir FLAGS) "train.question" in
    let train_ans_path :=
      Py.os_path_join (FLAGS.data_dir FLAGS) "train.span" in
    let dev_context_path :=
      Py.os_path_join (FLAGS.data_dir FLAGS) "dev.context" in
    let dev_qn_path :=
      Py.os_path_join (FLAGS.data_dir FLAGS) "dev.question" in
    let dev_ans_path :=
      Py.os_path_join (FLAGS.data_dir FLAGS) "dev.span" in
    let* qa_model := new_QAModel FLAGS id2word word2id emb_matrix in
    if bool_decide (FLAGS.mode FLAGS = "train") then
      train_mode qa_model bestmodel_dir ema_bestmodel_dir
        train_context_path train_qn_path train_ans_path
        dev_context_path dev_qn_path dev_ans_path
    else if bool_decide (FLAGS.mode FLAGS = "show_examples") then
      show_examples qa_model bestmodel_dir ema_bestmodel_dir
        dev_context_path dev_qn_path dev_ans_path
    else if bool_decide (FLAGS.mode FLAGS = "official_eval") then
      official_eval qa_model word2id
    else
      raise (Exception ("Unexpected value of FLAGS.mode: "
                        ++ FLAGS.mode FLAGS)).

(** A run of the program on given flags from a given world. *)
Definition run (flags : FLAGS.t) (w : World) (unused_argv : list string)
  : (exn + unit) * State :=
  main unused_argv (mkState _ flags w []).

End Controller.

(** ** Vocabulary of the statements *)

Section Vocabulary.
Context `{C : Collaborators}.

(** The test of [initialize_model]:
    [ckpt and (Exists(ckpt.model_checkpoint_path) or Exists(v2_path))]. *)
Definition checkpoint_found (dir : string) (w : World) : bool :=
  match tf_train_get_checkpoint_state dir w with
  | Some p => tf_gfile_Exists p w || tf_gfile_Exists (p ++ ".index") w
  | None => false
  end.

(** [FLAGS] after line 137. *)
Definition with_train_dir (flags : FLAGS.t) : FLAGS.t :=
  FLAGS.set_train_dir
    (Py.or_else (FLAGS.train_dir flags)
       (Py.os_path_join EXPERIMENTS_DIR (FLAGS.experiment_name flags)))
    flags.

(** [FLAGS] after line 146. *)
Definition with_glove_path (flags : FLAGS.t) : FLAGS.t :=
  FLAGS.set_glove_path
    (Py.or_else (FLAGS.glove_path flags)
       (Py.os_path_join DEFAULT_DATA_DIR
          ("glove.42B." ++ Py.str_of_int (FLAGS.embedding_size flags)
           ++ "d.txt")))
    flags.

Definition setup_flags (flags : FLAGS.t) : FLAGS.t :=
  with_glove_path (with_train_dir flags).

Definition banner : string :=
  "This code was developed and tested on TensorFlow 1.4.1. "
  ++ "Your TensorFlow version: " ++ tf_version.

(** What every run that gets past line 160 has done by then: the banner,
    the GloVe load and the construction of the model. *)
Definition preamble (flags : FLAGS.t) (model : Model) : list event :=
  [Stdout banner;
   Get_glove (FLAGS.glove_path (setup_flags flags))
             (FLAGS.embedding_size flags);
   New_QAModel (setup_flags flags) model].

(** Work on checkpoints: the look-up and the two ways of restoring. *)
Definition checkpoint_work (ev : event) : bool :=
  match ev with
  | Get_checkpoint_state _ | Restore_ema _ _ | Restore_raw _ _
  | Run_global_variables_initializer _ => true
  | _ => false
  end.

(** Work on the model: its construction, and before it the load of the
    embeddings it is built from. *)
Definition model_work (ev : event) : bool :=
  match ev with
  | Get_glove _ _ | New_QAModel _ _ => true
  | _ => false
  end.

(** Events that only write to standard output. *)
Definition stdout_only (ev : event) : bool :=
  match ev with Stdout _ => true | _ => false end.

(** The restore that [load_ema_checkpoint] selects. *)
Definition restore_event (flags : FLAGS.t) (sess : Session) (p : string)
  : event :=
  if FLAGS.load_ema_checkpoint flags then Restore_ema sess p
  else Restore_raw sess p.

Definition restore_world (flags : FLAGS.t) (model : Model) (sess : Session)
    (p : string) (w : World) : World :=
  if FLAGS.load_ema_checkpoint flags then ema_restorer_restore model sess p w
  else model_saver_restore model sess p w.

(** The events of an [initialize_model] that finds a checkpoint at path
    [p] in [dir]. *)
Definition load_events (flags : FLAGS.t) (sess : Session) (dir p : string)
  : list event :=
  [Stdout ("Looking for model at " ++ dir ++ "...");
   Get_checkpoint_state dir;
   Stdout ("Reading model parameters from " ++ p);
   restore_event flags sess p].

(** The events of an [initialize_model] that finds none. *)
Definition miss_events (dir : string) : list event :=
  [Stdout ("Looking for model at " ++ dir ++ "...");
   Get_checkpoint_state dir].

(** The events of the initialisation with fresh parameters. *)
Definition fresh_events (sess : Session) (dir : string) (w : World)
  : list event :=
  [Stdout ("There is no saved checkpoint at " ++ dir
           ++ ". Creating model with fresh parameters.");
   Run_global_variables_initializer sess;
   Stdout ("Num params: "
           ++ Py.str_of_int
                (foldr Z.add 0
                   (trainable_variables_num_elements
                      (run_global_variables_initializer sess w))))].

(** The events of a [write_predictions] that returns. *)
Definition write_events (flags : FLAGS.t) (bytes : list N) : list event :=
  [Stdout ("Writing predictions to " ++ FLAGS.json_out_path flags ++ "...");
   Io_open_w (FLAGS.json_out_path flags);
   File_write (FLAGS.json_out_path flags) bytes;
   Stdout ("Wrote predictions to " ++ FLAGS.json_out_path flags)].

(** The events of a [write_predictions] whose output cannot be encoded:
    the file has been opened, nothing has been written into it. *)
Definition write_failure_events (flags : FLAGS.t) : list event :=
  [Stdout ("Writing predictions to " ++ FLAGS.json_out_path flags ++ "...");
   Io_open_w (FLAGS.json_out_path flags)].

Definition elmo_voca (flags : FLAGS.t) : string :=
  Py.os_path_join (FLAGS.data_dir flags) "elmo_voca.txt".

Definition pos_tags_path (flags : FLAGS.t) : string :=
  Py.os_path_join (FLAGS.main_dir flags) "pos_tags.txt".

(** What one base-model pass of the ensemble produced. *)
Record Pass := mkPass {
  pass_batch : Batch Contexts Questions;
  pass_batcher : BatcherT;
  pass_sess : Session;
  pass_ckpt : string;
  pass_records : Records
}.

(** The events of a base-model pass over [dir] that returns. *)
Definition pass_events (flags : FLAGS.t) (pos ne : TagMap) (dir : string)
    (p : Pass) : list event :=
  [Get_json_data (FLAGS.json_in_path flags) (pass_batch p);
   New_Batcher (elmo_voca flags) (FLAGS.max_word_size flags) (pass_batcher p);
   Session_enter (pass_sess p)]
  ++ load_events flags (pass_sess p) dir (pass_ckpt p)
  ++ [Generate_partial_answers (pass_sess p) (pass_batch p) (pass_batcher p)
        pos ne (pass_records p);
      Session_exit (pass_sess p)].

(** The events of the aggregation that follows the passes. *)
Definition aggregate_events (flags : FLAGS.t) (pos ne : TagMap)
    (batch : Batch Contexts Questions) (batcher : BatcherT)
    (partial_answers : list Records) (answers : Py.dict) : list event :=
  [Get_json_data (FLAGS.json_in_path flags) batch;
   New_Batcher (elmo_voca flags) (FLAGS.max_word_size flags) batcher;
   Generate_ensemble_answers batch batcher pos ne partial_answers answers].

(** The events of the single sub-mode, when it returns. *)
Definition single_events (flags : FLAGS.t) (pos ne : TagMap)
    (batch : Batch Contexts Questions) (batcher : BatcherT) (sess : Session)
    (p : string) (answers : Py.dict) (bytes : list N) : list event :=
  [New_Batcher (elmo_voca flags) (FLAGS.max_word_size flags) batcher;
   Get_json_data (FLAGS.json_in_path flags) batch;
   Session_enter sess]
  ++ load_events flags sess
       (Py.os_path_join (FLAGS.ckpt_load_dir flags) "ema_best_checkpoint_1") p
  ++ [Generate_answers sess batch batcher pos ne answers]
  ++ write_events flags bytes
  ++ [Session_exit sess].

(** In the events after the tag tables were built, the tag file is not
    read again and every inference call is given the tables built from
    [lines]. *)
Definition uses_tables (lines : list string) (ev : event) : Prop :=
  match ev with
  | Open_readlines _ => False
  | Generate_answers _ _ _ pos ne _
  | Generate_partial_answers _ _ _ pos ne _
  | Generate_ensemble_answers _ _ pos ne _ _ =>
      pos = build_pos_tag_id_map lines ∧ ne = build_ne_tag_id_map
  | _ => True
  end.

(** The output files written, in order. *)
Definition files_written (trace : list event) : list (string * list N) :=
  trace ≫= λ ev, match ev with
                  | File_write path bytes => [(path, bytes)]
                  | _ => []
                  end.

(** The aggregations made, in order. *)
Definition aggregations (trace : list event) : list (list Records) :=
  trace ≫= λ ev, match ev with
                  | Generate_ensemble_answers _ _ _ _ partial_answers _ =>
                      [partial_answers]
                  | _ => []
                  end.

(** The test of line 135. *)
Definition lacks_name (flags : FLAGS.t) : bool :=
  negb (Py.truthy (FLAGS.experiment_name flags))
  && negb (Py.truthy (FLAGS.train_dir flags))
  && bool_decide (FLAGS.mode flags ≠ "official_eval").

(** The directories of the best checkpoints (lines 140 and 142). *)
Definition bestmodel_dir (flags : FLAGS.t) : string :=
  Py.os_path_join (FLAGS.train_dir (with_train_dir flags)) "best_checkpoint".

Definition ema_bestmodel_dir (flags : FLAGS.t) : string :=
  Py.os_path_join (FLAGS.train_dir (with_train_dir flags))
    "ema_best_checkpoint".

(** The values that [main] has built when it reaches the dispatch on
    [FLAGS.mode] (line 167), and the state it is in. *)
Definition glove_of (flags : FLAGS.t) (w : World)
  : (EmbMatrix * Word2Id * Id2Word) * World :=
  get_glove (FLAGS.glove_path (setup_flags flags))
            (FLAGS.embedding_size flags) w.

Definition word2id_of (flags : FLAGS.t) (w : World) : Word2Id :=
  (glove_of flags w).1.1.2.

Definition model_of (flags : FLAGS.t) (w : World) : Model * World :=
  QAModel (setup_flags flags) (glove_of flags w).1.2 (word2id_of flags w)
          (glove_of flags w).1.1.1 (glove_of flags w).2.

Definition setup_state (flags : FLAGS.t) (w : World) : State :=
  mkState _ (setup_flags flags) (model_of flags w).2
          (preamble flags (model_of flags w).1).

(** The state in which the official_eval branch chooses its sub-mode:
    the tag file has been read. *)
Definition tables_state (flags : FLAGS.t) (w : World) : State :=
  mkState _ (setup_flags flags) (model_of flags w).2
          (preamble flags (model_of flags w).1
           ++ [Open_readlines (pos_tags_path flags)]).

Definition pos_tag_lines_of (flags : FLAGS.t) (w : World) : list string :=
  open_readlines (pos_tags_path flags) (model_of flags w).2.

(** [m], run with flags [f0], leaves the flags as they are, extends the
    trace by events that satisfy [P], and returns values that satisfy
    [Q]. *)
Definition keeps (f0 : FLAGS.t) (P : event → Prop) {A} (m : M A)
    (Q : A → Prop) : Prop :=
  ∀ s, st_flags s = f0 →
    st_flags (m s).2 = f0
    ∧ (∃ evs : list event,
         st_trace (m s).2 = (st_trace s ++ evs)%list ∧ Forall P evs)
    ∧ ∀ a, (m s).1 = inr a → Q a.

(** Events other than the restores, the inference calls and the read of
    the tag file. *)
Definition benign (ev : event) : Prop :=
  match ev with
  | Restore_ema _ _ | Restore_raw _ _ | Open_readlines _
  | Generate_answers _ _ _ _ _ _ | Generate_partial_answers _ _ _ _ _ _
  | Generate_ensemble_answers _ _ _ _ _ _ => False
  | _ => True
  end.

(** The restore events that agree with the switch. *)
Definition restore_agrees (flags : FLAGS.t) (ev : event) : Prop :=
  match ev with
  | Restore_ema _ _ => FLAGS.load_ema_checkpoint flags = true
  | Restore_raw _ _ => FLAGS.load_ema_checkpoint flags = false
  | _ => True
  end.

End Vocabulary.

(** ** The answer generators of [official_eval_helper.py]

    [generate_answers] and [generate_ensemble_answers] are defined in
    [official_eval_helper.py], which is not among the sources; [main] only
    calls them.  What the design document says of them is modelled here. *)

Module Spec.

(** Modelled from the spec: the Per-Model Answer Record of the data model
    (the extracted answer text, its span and a confidence score), which
    [official_eval_helper.py], missing from the sources, produces. *)
Record AnswerRecord := mkRecord {
  answer : Py.text;
  span : Z * Z;
  score : Q
}.

(** Modelled from the spec: the record set of one base model, keyed by
    uuid, one record per example ([official_eval_helper.py] is missing). *)
Abbreviation RecordSet := (gmap (list N) AnswerRecord).

(** Modelled from the spec: the error of a record set that does not cover
    the example universe (section 7; the aggregator is missing from the
    sources). *)
Inductive error := IncompleteEnsembleDataError.

(** Modelled from the spec: the contract of the missing answer generators,
    that the mapping they return holds one entry for each uuid of the
    input batch and no other. *)
Definition covers (uuids : list Py.text) (d : Py.dict) : Prop :=
  NoDup (Py.keys d) ∧ ∀ u, u ∈ Py.keys d ↔ u ∈ uuids.

(** Modelled from the spec: the missing [generate_answers] of the single
    sub-mode, one answer extracted per example of the batch, for an
    extraction [extract] left open. *)
Definition generate_answers {Example : Type} (extract : Example → Py.text)
    (batch : list (Py.text * Example)) : Py.dict :=
  foldl (λ d '(uuid, example), Py.dict_set uuid (extract example) d) [] batch.

Section Aggregator.

(** The scoring rule, which the design leaves to the implementation: how
    much the candidates of an example favour one of them. *)
Variable favor : list AnswerRecord → AnswerRecord → Q.

(** Modelled from the spec: the candidates of an example, one per model in
    model order (missing aggregator); none when a model has no record. *)
Definition candidates (models : list RecordSet) (uuid : Py.text)
  : option (list AnswerRecord) :=
  mapM (λ m : RecordSet, m !! uuid) models.

(** Modelled from the spec: the selection rule of the missing aggregator;
    a later candidate replaces the current best only when strictly more
    favoured, so that ties go to the lowest-indexed model. *)
Definition select (cands : list AnswerRecord) : option AnswerRecord :=
  match cands with
  | [] => None
  | c :: rest =>
      Some (foldl (λ best c',
                     if Qle_bool (favor cands c') (favor cands best)
                     then best else c')
                  c rest)
  end.

(** Modelled from the spec: the final answer of one example (missing
    aggregator). *)
Definition final_answer (models : list RecordSet) (uuid : Py.text)
  : option Py.text :=
  candidates models uuid ≫= λ cands, answer <$> select cands.

(** Modelled from the spec: the missing [generate_ensemble_answers].
    Coverage of every example by every model is established before the
    mapping is built; a gap is fatal. *)
Definition generate_ensemble_answers (uuids : list Py.text)
    (models : list RecordSet) : error + Py.dict :=
  match mapM (λ u, (λ a, (u, a)) <$> final_answer models u) uuids with
  | None => inl IncompleteEnsembleDataError
  | Some entries =>
      inr (foldl (λ d '(u, a), Py.dict_set u a d) [] entries)
  end.

End Aggregator.

(** Modelled from the spec: the majority-vote rule that the end-to-end
    ensemble scenario of the design document uses (missing aggregator). *)
Definition majority_vote (cands : list AnswerRecord) (c : AnswerRecord) : Q :=
  inject_Z (Z.of_nat (length (filter (λ c', answer c' = answer c) cands))).

End Spec.

(** ** A small concrete set of collaborators

    Used to run the controller on concrete inputs: the checkpoints that
    exist are those of the directories [ckpts], the tag file holds
    [lines], the input batch holds [uuids], and every question is answered
    [answer]. *)

Definition toy_answers (answer : Py.text) (uuids : list Py.text) : Py.dict :=
  Spec.generate_answers (λ _ : unit, answer) ((λ u, (u, tt)) <$> uuids).

Definition toy (ckpts lines : list string) (uuids : list Py.text)
    (answer : Py.text) : Collaborators := {|
  World := unit;
  EmbMatrix := unit;
  Word2Id := unit;
  Id2Word := unit;
  Model := unit;
  Session := unit;
  BatcherT := unit;
  Contexts := unit;
  Questions := unit;
  Records := Py.dict;
  sys_version_major := 3;
  tf_version := "1.4.1";
  MAIN_DIR := ".";
  str_of_argv := String.concat ", ";
  get_glove := λ _ _ w, ((tt, tt, tt), w);
  QAModel := λ _ _ _ _ w, (tt, w);
  qa_model_train := λ _ _ _ _ _ _ _ _ w, w;
  qa_model_check_f1_em := λ _ _ _ _ _ _ _ _ w, w;
  get_json_data := λ _ w, ((uuids, tt, tt), w);
  Batcher := λ _ _ w, (tt, w);
  generate_answers := λ _ _ _ _ _ _ _ w, (toy_answers answer uuids, w);
  generate_partial_answers := λ _ _ _ _ _ _ _ w,
    (toy_answers answer uuids, w);
  generate_ensemble_answers := λ _ _ _ _ _ _ _ w,
    (toy_answers answer uuids, w);
  tf_Session := λ w, (tt, w);
  tf_Session_exit := λ _ w, w;
  tf_train_get_checkpoint_state := λ dir _,
    if bool_decide (dir ∈ ckpts)
    then Some (Py.os_path_join dir "qa.ckpt-1") else None;
  tf_gfile_Exists := λ p _, true;
  ema_restorer_restore := λ _ _ _ w, w;
  model_saver_restore := λ _ _ _ w, w;
  run_global_variables_initializer := λ _ w, w;
  trainable_variables_num_elements := λ _, [300; 12];
  os_path_exists := λ _ _, false;
  os_makedirs := λ _ w, w;
  logging_add_file_handler := λ _ w, w;
  json_dump_flags := λ _ _ w, w;
  open_readlines := λ _ _, lines;
  io_open_w := λ _ w, w;
  file_write := λ _ _ w, w
|}.

(** A line feed. *)
Definition LF : string := String "010"%char "".

(** No checkpoint anywhere. *)
Definition untrained : Collaborators :=
  toy [] ["NN" ++ LF; "VB" ++ LF] [] [].

(** The experiment [baseline] has both best checkpoints. *)
Definition trained : Collaborators :=
  toy ["./experiments/baseline/ema_best_checkpoint";
       "./experiments/baseline/best_checkpoint"]
      ["NN" ++ LF; "VB" ++ LF] [] [].

(** The seven base models of an ensemble under [ckpts], and a batch of two
    questions, [q1] and [q2], each answered [Paris]. *)
Definition deployed : Collaborators :=
  toy ["ckpts/ema_best_checkpoint_1"; "ckpts/ema_best_checkpoint_2";
       "ckpts/ema_best_checkpoint_3"; "ckpts/ema_best_checkpoint_4";
       "ckpts/ema_best_checkpoint_5"; "ckpts/ema_best_checkpoint_6";
       "ckpts/ema_best_checkpoint_7"]
      ["NN" ++ LF; "VB" ++ LF]
      [Json.lit "q1"; Json.lit "q2"] (Json.lit "Paris").

(** Flags of an official_eval invocation, other flags at their defaults. *)
Definition eval_flags (json_in_path ckpt_load_dir single_ensemble : string)
  : FLAGS.t :=
  FLAGS.mk 0 "official_eval" "" 0 (1 # 1000) 5 (2 # 10) 100 100 400 30 300
    true 40 60 10 10 16 262 true single_ensemble 1 500 500 1 "" ""
    "./data" ckpt_load_dir json_in_path "predictions.json" ".".

(** Flags of an invocation in [mode], other flags at their defaults. *)
Definition mode_flags (mode experiment_name train_dir : string)
    (load_ema_checkpoint : bool) : FLAGS.t :=
  FLAGS.mk 0 mode experiment_name 0 (1 # 1000) 5 (2 # 10) 100 100 400 30 300
    true 40 60 10 10 16 262 load_ema_checkpoint "" 1 500 500 1 train_dir ""
    "./data" "" "" "predictions.json" ".".

(** ** Vocabulary of the statements on the train and inspect modes *)

Section ModeVocabulary.
Context `{C : Collaborators}.

(** The events of [if not os.path.exists(path): os.makedirs(path)] in
    world [w]. *)
Definition ensure_dir_events (path : string) (w : World) : list event :=
  if os_path_exists path w then [] else [Os_makedirs path].

(** The world after [if not os.path.exists(path): os.makedirs(path)]. *)
Definition ensure_dir (path : string) (w : World) : World :=
  if os_path_exists path w then w else os_makedirs path w.

(** The events of a load that is not required, in world [w]: those of the
    restore when [dir] holds a checkpoint, and otherwise the look-up
    followed by the initialisation with fresh parameters. *)
Definition optional_load_events (flags : FLAGS.t) (sess : Session)
    (dir : string) (w : World) : list event :=
  match tf_train_get_checkpoint_state dir w with
  | Some p =>
      if checkpoint_found dir w then load_events flags sess dir p
      else miss_events dir ++ fresh_events sess dir w
  | None => miss_events dir ++ fresh_events sess dir w
  end.

(** The directory in which show_examples looks for its checkpoint. *)
Definition inspect_dir (flags : FLAGS.t) : string :=
  if FLAGS.load_ema_checkpoint flags then ema_bestmodel_dir flags
  else bestmodel_dir flags.

(** The glove file that line 146 settles on. *)
Definition resolved_glove_path (flags : FLAGS.t) : string :=
  if bool_decide (FLAGS.glove_path flags = "") then
    Py.os_path_join DEFAULT_DATA_DIR
      ("glove.42B." ++ Py.str_of_int (FLAGS.embedding_size flags) ++ "d.txt")
  else FLAGS.glove_path flags.

(** Entering or leaving a session. *)
Definition session_event (ev : event) : bool :=
  match ev with
  | Session_enter _ | Session_exit _ => true
  | _ => false
  end.

(** Traces in which every session entered is left, by the matching exit,
    before another is entered, and no exit comes without its entry. *)
Inductive bracketed : list event → Prop :=
| bracketed_nil : bracketed []
| bracketed_quiet ev t :
    session_event ev = false → bracketed t → bracketed (ev :: t)
| bracketed_session sess body t :
    Forall (λ ev, session_event ev = false) body → bracketed t →
    bracketed (Session_enter sess :: body ++ Session_exit sess :: t).

(** [m], run with flags [f0], leaves the flags as they are and extends the
    trace by a bracketed sequence of events. *)
Definition brackets (f0 : FLAGS.t) {A} (m : M A) : Prop :=
  ∀ s, st_flags s = f0 →
    st_flags (m s).2 = f0
    ∧ ∃ evs : list event,
        st_trace (m s).2 = (st_trace s ++ evs)%list ∧ bracketed evs.

(** Events that touch the file system for writing: a directory made, a
    log file attached, the flags dumped, a file opened or written. *)
Definition writes_to (ev : event) : option string :=
  match ev with
  | Os_makedirs path | Logging_add_file_handler path
  | Json_dump_flags path _ | Io_open_w path | File_write path _ => Some path
  | _ => None
  end.

(** What an official_eval run may do once the model is built: read the
    tag file and the input, build batchers, use sessions, look up and
    restore checkpoints, infer and aggregate, and write to
    [json_out_path] only. *)
Definition eval_event (flags : FLAGS.t) (ev : event) : Prop :=
  match ev with
  | Stdout _ | Session_enter _ | Session_exit _ | Get_checkpoint_state _
  | Restore_ema _ _ | Restore_raw _ _
  | Generate_answers _ _ _ _ _ _ | Generate_partial_answers _ _ _ _ _ _
  | Generate_ensemble_answers _ _ _ _ _ _ => True
  | Open_readlines path => path = pos_tags_path flags
  | Get_json_data path _ => path = FLAGS.json_in_path flags
  | New_Batcher path size _ =>
      path = elmo_voca flags ∧ size = FLAGS.max_word_size flags
  | Io_open_w path | File_write path _ => path = FLAGS.json_out_path flags
  | _ => False
  end.

(** Events before the output file is opened. *)
Definition output_untouched (ev : event) : Prop :=
  match ev with
  | Io_open_w _ | File_write _ _ => False
  | _ => True
  end.

End ModeVocabulary.

(** ** Vocabulary of the statements on what a run touches *)

Section FootprintVocabulary.
Context `{C : Collaborators}.

(** What a required load may do: print, look the checkpoint up, restore. *)
Definition load_event (ev : event) : Prop :=
  match ev with
  | Stdout _ | Get_checkpoint_state _ | Restore_ema _ _ | Restore_raw _ _ =>
      True
  | _ => False
  end.

(** What a load may do when it is not required: the same, or initialise
    fresh parameters. *)
Definition init_event (ev : event) : Prop :=
  match ev with
  | Run_global_variables_initializer _ => True
  | _ => load_event ev
  end.

(** What an official_eval run may do before it writes its output. *)
Definition infer_event (flags : FLAGS.t) (ev : event) : Prop :=
  eval_event flags ev ∧ output_untouched ev.

(** Events other than a write into a file. *)
Definition unwritten (ev : event) : Prop :=
  match ev with
  | File_write _ _ => False
  | _ => True
  end.

End FootprintVocabulary.

(** * Properties *)

Open Scope list_scope.

(** ** Running the monad *)

Section Run.
Context `{C : Collaborators}.

Lemma run_bind {A B} (m : M A) (k : A → M B) s :
  bind m k s
  = match m s with
    | (inr a, s') => k a s'
    | (inl e, s') => (inl e, s')
    end.
Proof. reflexivity. Qed.

Lemma run_ret {A} (a : A) s : ret a s = (inr a, s).
Proof. reflexivity. Qed.

Lemma run_raise {A} e s : raise (A := A) e s = (inl e, s).
Proof. reflexivity. Qed.

Lemma run_get_flags s : get_flags s = (inr (st_flags s), s).
Proof. reflexivity. Qed.

Lemma run_set_flags f s :
  set_flags f s = (inr tt, mkState _ f (st_world s) (st_trace s)).
Proof. reflexivity. Qed.

Lemma run_log ev s :
  log ev s
  = (inr tt, mkState _ (st_flags s) (st_world s) (st_trace s ++ [ev])).
Proof. reflexivity. Qed.

Lemma run_print msg s :
  print msg s
  = (inr tt, mkState _ (st_flags s) (st_world s) (st_trace s ++ [Stdout msg])).
Proof. reflexivity. Qed.

Lemma run_query {A} (q : World → A) s :
  query q s = (inr (q (st_world s)), s).
Proof. reflexivity. Qed.

Lemma run_call {A} (c : World → A * World) s :
  call c s
  = (inr (c (st_world s)).1,
     mkState _ (st_flags s) (c (st_world s)).2 (st_trace s)).
Proof. reflexivity. Qed.

Lemma run_effect (c : World → World) s :
  effect c s = (inr tt, mkState _ (st_flags s) (c (st_world s)) (st_trace s)).
Proof. reflexivity. Qed.

Lemma run_finally {A} (body : M A) cleanup s :
  finally body cleanup s
  = match body s with
    | (r, s') => match cleanup s' with
                 | (inr _, s'') => (r, s'')
                 | (inl e, s'') => (inl e, s'')
                 end
    end.
Proof. reflexivity. Qed.

Lemma run_if {A} (b : bool) (m1 m2 : M A) s :
  (if b then m1 else m2) s = if b then m1 s else m2 s.
Proof. by destruct b. Qed.

End Run.

Create Rewrite HintDb mrun.
#[export] Hint Rewrite @run_bind @run_ret @run_raise @run_get_flags
  @run_set_flags @run_log @run_print @run_query @run_call @run_effect
  @run_finally : mrun.

(** Projections of states and flags built by the run. *)
Ltac mproj :=
  cbn beta iota delta
      [st_flags st_world st_trace fst snd
       FLAGS.gpu FLAGS.mode FLAGS.experiment_name FLAGS.num_epochs
       FLAGS.learning_rate FLAGS.max_gradient_norm FLAGS.dropout
       FLAGS.batch_size FLAGS.hidden_size FLAGS.context_len
       FLAGS.question_len FLAGS.embedding_size FLAGS.share_LSTM_weights
       FLAGS.max_word_size FLAGS.elmo_embedding_max_token_size
       FLAGS.pos_embedding_size FLAGS.ne_embedding_size
       FLAGS.char_embedding_size FLAGS.num_of_char FLAGS.load_ema_checkpoint
       FLAGS.single_ensemble FLAGS.print_every FLAGS.save_every
       FLAGS.eval_every FLAGS.keep FLAGS.train_dir FLAGS.glove_path
       FLAGS.data_dir FLAGS.ckpt_load_dir FLAGS.json_in_path
       FLAGS.json_out_path FLAGS.main_dir FLAGS.set_train_dir
       FLAGS.set_glove_path].

Ltac mproj_in H :=
  cbn beta iota delta
      [st_flags st_world st_trace fst snd
       FLAGS.gpu FLAGS.mode FLAGS.experiment_name FLAGS.num_epochs
       FLAGS.learning_rate FLAGS.max_gradient_norm FLAGS.dropout
       FLAGS.batch_size FLAGS.hidden_size FLAGS.context_len
       FLAGS.question_len FLAGS.embedding_size FLAGS.share_LSTM_weights
       FLAGS.max_word_size FLAGS.elmo_embedding_max_token_size
       FLAGS.pos_embedding_size FLAGS.ne_embedding_size
       FLAGS.char_embedding_size FLAGS.num_of_char FLAGS.load_ema_checkpoint
       FLAGS.single_ensemble FLAGS.print_every FLAGS.save_every
       FLAGS.eval_every FLAGS.keep FLAGS.train_dir FLAGS.glove_path
       FLAGS.data_dir FLAGS.ckpt_load_dir FLAGS.json_in_path
       FLAGS.json_out_path FLAGS.main_dir FLAGS.set_train_dir
       FLAGS.set_glove_path] in H.

(** Symbolic execution up to the next test that does not reduce. *)
Ltac mrun := repeat (progress (autorewrite with mrun; mproj)).

(** One step of symbolic execution, and as many as apply. *)
Ltac mstep :=
  first [ rewrite run_bind | rewrite run_ret | rewrite run_raise
        | rewrite run_get_flags | rewrite run_set_flags | rewrite run_log
        | rewrite run_print | rewrite run_query | rewrite run_call
        | rewrite run_effect | rewrite run_finally ].

Ltac mfast := repeat (mstep; mproj).

(** The call sites, unfolded. *)
Ltac mcalls :=
  unfold call_get_glove, new_QAModel, makedirs_if_missing, makedirs,
    add_file_handler, dump_flags, with_session, get_checkpoint_state,
    restore_ema, restore_raw, global_variables_initializer, train,
    check_f1_em, readlines, call_get_json_data, new_Batcher,
    call_generate_answers, call_generate_partial_answers,
    call_generate_ensemble_answers.

(** ** [initialize_model] *)

Section InitializeModel.
Context `{C : Collaborators}.

Lemma initialize_model_found sess model dir expect s p :
  tf_train_get_checkpoint_state dir (st_world s) = Some p →
  tf_gfile_Exists p (st_world s)
  || tf_gfile_Exists (p ++ ".index") (st_world s) = true →
  initialize_model sess model dir expect s
  = (inr tt,
     mkState _ (st_flags s)
       (restore_world (st_flags s) model sess p (st_world s))
       (st_trace s ++ load_events (st_flags s) sess dir p)).
Proof.
  intros Hckpt Hex. unfold initialize_model. mcalls. mrun.
  rewrite Hckpt. mrun. rewrite Hex. mrun.
  unfold load_events, restore_event, restore_world.
  destruct (FLAGS.load_ema_checkpoint (st_flags s)); mrun;
    by rewrite <- !app_assoc.
Qed.

Lemma initialize_model_missing sess model dir expect s :
  checkpoint_found dir (st_world s) = false →
  initialize_model sess model dir expect s
  = if expect then
      (inl (Exception ("There is no saved checkpoint at " ++ dir)),
       mkState _ (st_flags s) (st_world s) (st_trace s ++ miss_events dir))
    else
      (inr tt,
       mkState _ (st_flags s)
         (run_global_variables_initializer sess (st_world s))
         (st_trace s ++ miss_events dir
          ++ fresh_events sess dir (st_world s))).
Proof.
  unfold checkpoint_found. intros Hmiss.
  unfold initialize_model. mcalls. mrun.
  assert (no_checkpoint sess dir expect
            (mkState _ (st_flags s) (st_world s)
               (st_trace s ++ miss_events dir))
          = if expect then
              (inl (Exception ("There is no saved checkpoint at " ++ dir)),
               mkState _ (st_flags s) (st_world s)
                 (st_trace s ++ miss_events dir))
            else
              (inr tt,
               mkState _ (st_flags s)
                 (run_global_variables_initializer sess (st_world s))
                 (st_trace s ++ miss_events dir
                  ++ fresh_events sess dir (st_world s)))) as Hno.
  { unfold no_checkpoint. destruct expect; [reflexivity |].
    mcalls. mrun. unfold fresh_events. by rewrite <- !app_assoc. }
  unfold miss_events in *. rewrite <- !app_assoc in *. simpl app in *.
  destruct (tf_train_get_checkpoint_state dir (st_world s)) as [p|];
    mrun; [rewrite Hmiss; mrun |]; exact Hno.
Qed.

Lemma initialize_model_cases sess model dir expect s :
  (∃ p, tf_train_get_checkpoint_state dir (st_world s) = Some p
        ∧ checkpoint_found dir (st_world s) = true
        ∧ initialize_model sess model dir expect s
          = (inr tt,
             mkState _ (st_flags s)
               (restore_world (st_flags s) model sess p (st_world s))
               (st_trace s ++ load_events (st_flags s) sess dir p)))
  ∨ (checkpoint_found dir (st_world s) = false
     ∧ initialize_model sess model dir expect s
       = if expect then
           (inl (Exception ("There is no saved checkpoint at " ++ dir)),
            mkState _ (st_flags s) (st_world s)
              (st_trace s ++ miss_events dir))
         else
           (inr tt,
            mkState _ (st_flags s)
              (run_global_variables_initializer sess (st_world s))
              (st_trace s ++ miss_events dir
               ++ fresh_events sess dir (st_world s)))).
Proof.
  destruct (checkpoint_found dir (st_world s)) eqn:Hfound.
  - left. unfold checkpoint_found in Hfound.
    destruct (tf_train_get_checkpoint_state dir (st_world s)) as [p|] eqn:Hc;
      [| discriminate].
    exists p. split; [done |]. split; [done |].
    by apply initialize_model_found.
  - right. split; [done |]. by apply initialize_model_missing.
Qed.

End InitializeModel.

(** ** An invariant of runs: flags kept, trace extended by allowed events *)

Section Keeps.
Context `{C : Collaborators} (f0 : FLAGS.t) (P : event → Prop).

Lemma keeps_ret {A} (a : A) (Q : A → Prop) : Q a → keeps f0 P (ret a) Q.
Proof.
  intros HQ s Hs. split; [done |]. split.
  - exists []. by rewrite app_nil_r.
  - intros a' [= <-]. done.
Qed.

Lemma keeps_raise {A} e (Q : A → Prop) : keeps f0 P (raise e) Q.
Proof.
  intros s Hs. split; [done |]. split; [| done].
  exists []. by rewrite app_nil_r.
Qed.

Lemma keeps_bind {A B} (m : M A) (k : A → M B) Q R :
  keeps f0 P m Q → (∀ a, Q a → keeps f0 P (k a) R) →
  keeps f0 P (bind m k) R.
Proof.
  intros Hm Hk s Hs. destruct (Hm s Hs) as (Hf & (evs & Ht & HP) & HQ).
  rewrite run_bind. destruct (m s) as [[e|a] s1]; simpl in *.
  - split; [done |]. split; [by exists evs | done].
  - destruct (Hk a (HQ a eq_refl) s1 Hf) as (Hf' & (evs' & Ht' & HP') & HR).
    split; [done |]. split; [| done].
    exists (evs ++ evs'). rewrite Ht', Ht, app_assoc. split; [done |].
    by apply Forall_app.
Qed.

Lemma keeps_weaken {A} (m : M A) (Q Q' : A → Prop) :
  keeps f0 P m Q → (∀ a, Q a → Q' a) → keeps f0 P m Q'.
Proof.
  intros Hm HQ s Hs. destruct (Hm s Hs) as (Hf & Ht & Hq).
  split; [done |]. split; [done |]. intros a Ha. by apply HQ, Hq.
Qed.

Lemma keeps_finally {A} (body : M A) cleanup (Q : A → Prop) :
  keeps f0 P body Q → keeps f0 P cleanup (λ _, True) →
  keeps f0 P (finally body cleanup) Q.
Proof.
  intros Hb Hc s Hs. destruct (Hb s Hs) as (Hf & (evs & Ht & HP) & HQ).
  rewrite run_finally. destruct (body s) as [r s1]; simpl in *.
  destruct (Hc s1 Hf) as (Hf' & (evs' & Ht' & HP') & _).
  assert (∃ evs0 : list event,
            st_trace (cleanup s1).2 = (st_trace s ++ evs0)%list
            ∧ Forall P evs0)
    as Hext.
  { exists (evs ++ evs'). rewrite Ht', Ht, app_assoc. split; [done |].
    by apply Forall_app. }
  destruct (cleanup s1) as [[e|[]] s2]; simpl in *; by repeat split.
Qed.

Lemma keeps_if {A} (b : bool) (m1 m2 : M A) (Q : A → Prop) :
  (b = true → keeps f0 P m1 Q) → (b = false → keeps f0 P m2 Q) →
  keeps f0 P (if b then m1 else m2) Q.
Proof. destruct b; auto. Qed.

Lemma keeps_log ev : P ev → keeps f0 P (log ev) (λ _, True).
Proof.
  intros HP s Hs. split; [done |]. split; [| done].
  exists [ev]. split; [done |]. by apply Forall_singleton.
Qed.

Lemma keeps_print msg : P (Stdout msg) → keeps f0 P (print msg) (λ _, True).
Proof. apply keeps_log. Qed.

Lemma keeps_get_flags : keeps f0 P get_flags (λ f, f = f0).
Proof.
  intros s Hs. split; [done |]. split.
  - exists []. by rewrite app_nil_r.
  - by intros a [= <-].
Qed.

Lemma keeps_query {A} (q : World → A) : keeps f0 P (query q) (λ _, True).
Proof.
  intros s Hs. split; [done |]. split; [| done].
  exists []. by rewrite app_nil_r.
Qed.

Lemma keeps_call {A} (c : World → A * World) :
  keeps f0 P (call c) (λ _, True).
Proof.
  intros s Hs. split; [done |]. split; [| done].
  exists []. by rewrite app_nil_r.
Qed.

Lemma keeps_effect (c : World → World) : keeps f0 P (effect c) (λ _, True).
Proof.
  intros s Hs. split; [done |]. split; [| done].
  exists []. by rewrite app_nil_r.
Qed.

End Keeps.

(** Decomposes a [keeps] goal along the structure of the program; what
    remains are the conditions on the events logged. *)
Ltac keeps_step :=
  lazymatch goal with
  | |- keeps _ _ (bind get_flags _) _ =>
      eapply keeps_bind; [apply keeps_get_flags | intros ? ->]
  | |- keeps _ _ (bind _ _) _ =>
      eapply keeps_bind; [| intros ? ?]
  | |- keeps _ _ (finally _ _) _ => apply keeps_finally
  | |- keeps _ _ (log _) _ =>
      eapply keeps_weaken; [apply keeps_log | done]
  | |- keeps _ _ (print _) _ =>
      eapply keeps_weaken; [apply keeps_print | done]
  | |- keeps _ _ (query _) _ =>
      eapply keeps_weaken; [apply keeps_query | done]
  | |- keeps _ _ (call _) _ =>
      eapply keeps_weaken; [apply keeps_call | done]
  | |- keeps _ _ (effect _) _ =>
      eapply keeps_weaken; [apply keeps_effect | done]
  | |- keeps _ _ (ret _) _ => apply keeps_ret
  | |- keeps _ _ (raise _) _ => apply keeps_raise
  | |- keeps _ _ (if _ then _ else _) _ => apply keeps_if; intros ?
  | |- keeps _ _ (match ?x with Some _ => _ | None => _ end) _ =>
      destruct x
  end.

Ltac keeps_auto := mcalls; repeat keeps_step.

(** ** The flags after lines 137 and 146 *)

Section SetupFlags.
Context `{C : Collaborators}.

Lemma setup_flags_mode flags :
  FLAGS.mode (setup_flags flags) = FLAGS.mode flags.
Proof. reflexivity. Qed.

Lemma setup_flags_experiment_name flags :
  FLAGS.experiment_name (setup_flags flags) = FLAGS.experiment_name flags.
Proof. reflexivity. Qed.

Lemma setup_flags_embedding_size flags :
  FLAGS.embedding_size (setup_flags flags) = FLAGS.embedding_size flags.
Proof. reflexivity. Qed.

Lemma setup_flags_load_ema_checkpoint flags :
  FLAGS.load_ema_checkpoint (setup_flags flags) = FLAGS.load_ema_checkpoint flags.
Proof. reflexivity. Qed.

Lemma setup_flags_single_ensemble flags :
  FLAGS.single_ensemble (setup_flags flags) = FLAGS.single_ensemble flags.
Proof. reflexivity. Qed.

Lemma setup_flags_max_word_size flags :
  FLAGS.max_word_size (setup_flags flags) = FLAGS.max_word_size flags.
Proof. reflexivity. Qed.

Lemma setup_flags_data_dir flags :
  FLAGS.data_dir (setup_flags flags) = FLAGS.data_dir flags.
Proof. reflexivity. Qed.

Lemma setup_flags_ckpt_load_dir flags :
  FLAGS.ckpt_load_dir (setup_flags flags) = FLAGS.ckpt_load_dir flags.
Proof. reflexivity. Qed.

Lemma setup_flags_json_in_path flags :
  FLAGS.json_in_path (setup_flags flags) = FLAGS.json_in_path flags.
Proof. reflexivity. Qed.

Lemma setup_flags_json_out_path flags :
  FLAGS.json_out_path (setup_flags flags) = FLAGS.json_out_path flags.
Proof. reflexivity. Qed.

Lemma setup_flags_main_dir flags :
  FLAGS.main_dir (setup_flags flags) = FLAGS.main_dir flags.
Proof. reflexivity. Qed.

End SetupFlags.

#[export] Hint Rewrite @setup_flags_mode @setup_flags_experiment_name @setup_flags_embedding_size @setup_flags_load_ema_checkpoint @setup_flags_single_ensemble @setup_flags_max_word_size @setup_flags_data_dir @setup_flags_ckpt_load_dir @setup_flags_json_in_path @setup_flags_json_out_path @setup_flags_main_dir
  : mrun.

(** ** [main] up to the dispatch on [FLAGS.mode] *)

Section Setup.
Context `{C : Collaborators}.

Lemma truthy_false s : Py.truthy s = false ↔ s = "".
Proof. destruct s; simpl; split; congruence. Qed.

Lemma lacks_name_true flags :
  lacks_name flags = true
  ↔ FLAGS.experiment_name flags = "" ∧ FLAGS.train_dir flags = ""
    ∧ FLAGS.mode flags ≠ "official_eval".
Proof.
  unfold lacks_name.
  rewrite !andb_true_iff, !negb_true_iff, !truthy_false, bool_decide_eq_true.
  tauto.
Qed.

Lemma lacks_name_official_eval flags :
  FLAGS.mode flags = "official_eval" → lacks_name flags = false.
Proof.
  intros Hmode. apply not_true_is_false. rewrite lacks_name_true. tauto.
Qed.

Lemma run_lacks_name flags w argv :
  length argv = 1%nat → sys_version_major = 3 → lacks_name flags = true →
  run flags w argv
  = (inl (Exception
            "You need to specify either --experiment_name or --train_dir"),
     mkState _ flags w [Stdout banner]).
Proof.
  intros Hargv Hpy Hlacks. unfold run, main.
  rewrite bool_decide_eq_false_2 by (rewrite Hargv; tauto).
  rewrite bool_decide_eq_false_2 by (rewrite Hpy; tauto).
  unfold define_train_dir. mrun. fold (lacks_name flags).
  rewrite Hlacks. by mrun.
Qed.

Lemma run_setup flags w argv :
  length argv = 1%nat → sys_version_major = 3 → lacks_name flags = false →
  run flags w argv
  = (if bool_decide (FLAGS.mode flags = "train") then
       train_mode (model_of flags w).1
         (bestmodel_dir flags) (ema_bestmodel_dir flags)
         (Py.os_path_join (FLAGS.data_dir flags) "train.context")
         (Py.os_path_join (FLAGS.data_dir flags) "train.question")
         (Py.os_path_join (FLAGS.data_dir flags) "train.span")
         (Py.os_path_join (FLAGS.data_dir flags) "dev.context")
         (Py.os_path_join (FLAGS.data_dir flags) "dev.question")
         (Py.os_path_join (FLAGS.data_dir flags) "dev.span")
     else if bool_decide (FLAGS.mode flags = "show_examples") then
       show_examples (model_of flags w).1
         (bestmodel_dir flags) (ema_bestmodel_dir flags)
         (Py.os_path_join (FLAGS.data_dir flags) "dev.context")
         (Py.os_path_join (FLAGS.data_dir flags) "dev.question")
         (Py.os_path_join (FLAGS.data_dir flags) "dev.span")
     else if bool_decide (FLAGS.mode flags = "official_eval") then
       official_eval (model_of flags w).1 (word2id_of flags w)
     else
       raise (Exception ("Unexpected value of FLAGS.mode: "
                         ++ FLAGS.mode flags)))
      (setup_state flags w).
Proof.
  intros Hargv Hpy Hlacks. unfold run, main.
  rewrite bool_decide_eq_false_2 by (rewrite Hargv; tauto).
  rewrite bool_decide_eq_false_2 by (rewrite Hpy; tauto).
  unfold define_train_dir. mrun. fold (lacks_name flags).
  rewrite Hlacks. mcalls. mrun.
  destruct (get_glove _ _ _) as [[[emb w2i] i2w] w1] eqn:Hglove. mrun.
  unfold setup_state, model_of, word2id_of, glove_of, preamble, setup_flags,
    with_glove_path, with_train_dir, bestmodel_dir, ema_bestmodel_dir,
    with_train_dir.
  mproj. rewrite Hglove. reflexivity.
Qed.

Lemma run_official_eval flags w argv :
  length argv = 1%nat → sys_version_major = 3 →
  FLAGS.mode flags = "official_eval" →
  run flags w argv
  = official_eval (model_of flags w).1 (word2id_of flags w)
      (setup_state flags w).
Proof.
  intros Hargv Hpy Hmode.
  rewrite run_setup by auto using lacks_name_official_eval.
  by rewrite Hmode.
Qed.

Lemma run_tables flags w argv :
  length argv = 1%nat → sys_version_major = 3 →
  FLAGS.mode flags = "official_eval" →
  FLAGS.json_in_path flags ≠ "" → FLAGS.ckpt_load_dir flags ≠ "" →
  run flags w argv
  = (if bool_decide (FLAGS.single_ensemble flags = "ensemble") then
       official_eval_ensemble (model_of flags w).1 (word2id_of flags w)
         (build_pos_tag_id_map (pos_tag_lines_of flags w))
         build_ne_tag_id_map
     else
       official_eval_single (model_of flags w).1 (word2id_of flags w)
         (build_pos_tag_id_map (pos_tag_lines_of flags w))
         build_ne_tag_id_map)
      (tables_state flags w).
Proof.
  intros Hargv Hpy Hmode Hin Hckpt. rewrite run_official_eval by done.
  unfold official_eval, setup_state. mrun.
  rewrite !bool_decide_eq_false_2 by done. mcalls. mrun. reflexivity.
Qed.

End Setup.

(** ** The invariant along the branches of [main] *)

Section KeepsPrograms.
Context `{C : Collaborators} (f0 : FLAGS.t) (P : event → Prop).
Hypothesis P_benign : ∀ ev, benign ev → P ev.
Hypothesis P_restore : ∀ sess p, P (restore_event f0 sess p).

Ltac keeps_event :=
  first
    [ apply P_benign; exact I
    | match goal with
      | Hb : FLAGS.load_ema_checkpoint f0 = _ |- P (_ ?sess ?p) =>
          let Hr := fresh in
          pose proof (P_restore sess p) as Hr;
          unfold restore_event in Hr; rewrite Hb in Hr; exact Hr
      end
    | done ].

Lemma keeps_initialize_model sess model dir expect :
  keeps f0 P (initialize_model sess model dir expect) (λ _, True).
Proof.
  unfold initialize_model, no_checkpoint. keeps_auto; keeps_event.
Qed.

Lemma keeps_with_session {A} (body : Session → M A) (Q : A → Prop) :
  (∀ sess, keeps f0 P (body sess) Q) → keeps f0 P (with_session body) Q.
Proof. intros Hbody. keeps_auto; keeps_event. Qed.

Lemma keeps_show_examples model best ema dev_context dev_qn dev_ans :
  keeps f0 P (show_examples model best ema dev_context dev_qn dev_ans)
        (λ _, True).
Proof.
  unfold show_examples. apply keeps_with_session. intros sess.
  keeps_auto; try keeps_event; apply keeps_initialize_model.
Qed.

Lemma keeps_train_mode model best ema p1 p2 p3 p4 p5 p6 :
  keeps f0 P (train_mode model best ema p1 p2 p3 p4 p5 p6) (λ _, True).
Proof.
  unfold train_mode.
  eapply keeps_bind; [apply keeps_get_flags | intros ? ->].
  do 5 (eapply keeps_bind; [keeps_auto; keeps_event | intros _ _]).
  apply keeps_with_session. intros sess.
  eapply keeps_bind; [apply keeps_initialize_model | intros _ _].
  keeps_auto; keeps_event.
Qed.

Lemma keeps_write_predictions answers :
  keeps f0 P (write_predictions answers) (λ _, True).
Proof. unfold write_predictions. keeps_auto; keeps_event. Qed.

Section Tables.
Variables pos ne : TagMap.
Hypothesis P_partial : ∀ sess batch batcher r,
  P (Generate_partial_answers sess batch batcher pos ne r).
Hypothesis P_ensemble : ∀ batch batcher partial_answers d,
  P (Generate_ensemble_answers batch batcher pos ne partial_answers d).
Hypothesis P_answers : ∀ sess batch batcher d,
  P (Generate_answers sess batch batcher pos ne d).

Lemma keeps_ensemble_pass model word2id dir :
  keeps f0 P (ensemble_pass model word2id pos ne dir) (λ _, True).
Proof.
  unfold ensemble_pass.
  eapply keeps_bind; [apply keeps_get_flags | intros ? ->].
  do 2 (eapply keeps_bind; [keeps_auto; keeps_event | intros ? _]).
  apply keeps_with_session. intros sess.
  eapply keeps_bind; [apply keeps_initialize_model | intros _ _].
  keeps_auto; [apply P_partial | done].
Qed.

Lemma keeps_ensemble_passes model word2id dirs acc :
  keeps f0 P (ensemble_passes model word2id pos ne dirs acc) (λ _, True).
Proof.
  revert acc. induction dirs as [|dir dirs IH]; intros acc; simpl.
  - by apply keeps_ret.
  - eapply keeps_bind; [apply keeps_ensemble_pass | intros r _]. apply IH.
Qed.

Lemma keeps_official_eval_ensemble model word2id :
  keeps f0 P (official_eval_ensemble model word2id pos ne) (λ _, True).
Proof.
  unfold official_eval_ensemble.
  eapply keeps_bind; [apply keeps_get_flags | intros ? ->].
  eapply keeps_bind; [apply keeps_ensemble_passes | intros partials _].
  do 2 (eapply keeps_bind; [keeps_auto; keeps_event | intros ? _]).
  eapply keeps_bind; [| intros d _; apply keeps_write_predictions].
  keeps_auto; [apply P_ensemble | done].
Qed.

Lemma keeps_official_eval_single model word2id :
  keeps f0 P (official_eval_single model word2id pos ne) (λ _, True).
Proof.
  unfold official_eval_single.
  eapply keeps_bind; [apply keeps_get_flags | intros ? ->].
  apply keeps_if; intros _; [| apply keeps_raise].
  do 2 (eapply keeps_bind; [keeps_auto; keeps_event | intros ? _]).
  apply keeps_with_session. intros sess.
  eapply keeps_bind; [apply keeps_initialize_model | intros _ _].
  eapply keeps_bind; [| intros d _; apply keeps_write_predictions].
  keeps_auto; [apply P_answers | done].
Qed.

End Tables.

End KeepsPrograms.

(** ** The two sub-modes of official_eval, case by case *)

Section Evaluate.
Context `{C : Collaborators}.

Lemma write_predictions_cases answers s :
  match Json.utf8_encode (Json.dumps answers) with
  | Some bytes =>
      write_predictions answers s
      = (inr tt,
         mkState _ (st_flags s)
           (file_write (FLAGS.json_out_path (st_flags s)) bytes
              (io_open_w (FLAGS.json_out_path (st_flags s)) (st_world s)))
           (st_trace s ++ write_events (st_flags s) bytes))
  | None =>
      write_predictions answers s
      = (inl UnicodeEncodeError,
         mkState _ (st_flags s)
           (io_open_w (FLAGS.json_out_path (st_flags s)) (st_world s))
           (st_trace s
            ++ [Stdout ("Writing predictions to "
                        ++ FLAGS.json_out_path (st_flags s) ++ "...");
                Io_open_w (FLAGS.json_out_path (st_flags s))]))
  end.
Proof.
  unfold write_predictions. mrun.
  destruct (Json.utf8_encode (Json.dumps answers)) as [bytes|]; mrun;
    unfold write_events; by rewrite <- !app_assoc.
Qed.

Lemma ensemble_pass_cases model word2id pos ne dir s :
  (∃ (p : Pass) w',
     ensemble_pass model word2id pos ne dir s
     = (inr (pass_records p),
        mkState _ (st_flags s) w'
          (st_trace s ++ pass_events (st_flags s) pos ne dir p)))
  ∨ (∃ w1 s',
       checkpoint_found dir w1 = false
       ∧ ensemble_pass model word2id pos ne dir s
         = (inl (Exception ("There is no saved checkpoint at " ++ dir)), s')).
Proof.
  unfold ensemble_pass. mcalls. mrun.
  match goal with
  | |- context [initialize_model ?a ?b ?c ?d ?s1] =>
      destruct (initialize_model_cases a b c d s1)
        as [(p & Hckpt & Hfound & ->) | (Hmiss & ->)]
  end; mproj.
  - left. mrun.
    eexists (mkPass _ _ _ p _), _. unfold pass_events, elmo_voca. mproj.
    rewrite <- !app_assoc. reflexivity.
  - right. mrun. eauto.
Qed.

Lemma ensemble_passes_cases model word2id pos ne dirs acc s :
  (∃ (ps : list Pass) w',
     length ps = length dirs
     ∧ ensemble_passes model word2id pos ne dirs acc s
       = (inr (acc ++ (pass_records <$> ps)),
          mkState _ (st_flags s) w'
            (st_trace s
             ++ concat (zip_with (pass_events (st_flags s) pos ne) dirs ps))))
  ∨ (∃ dir w1 s',
       dir ∈ dirs ∧ checkpoint_found dir w1 = false
       ∧ ensemble_passes model word2id pos ne dirs acc s
         = (inl (Exception ("There is no saved checkpoint at " ++ dir)), s')).
Proof.
  revert acc s. induction dirs as [|dir dirs IH]; intros acc s; simpl.
  - left. exists [], (st_world s). split; [done |].
    rewrite run_ret, !app_nil_r. by destruct s.
  - rewrite run_bind.
    destruct (ensemble_pass_cases model word2id pos ne dir s)
      as [(p & w1 & ->) | (w1 & s' & Hmiss & ->)].
    + destruct (IH (acc ++ [pass_records p])
                  (mkState _ (st_flags s) w1
                     (st_trace s ++ pass_events (st_flags s) pos ne dir p)))
        as [(ps & w2 & Hlen & ->) | (d & w2 & s2 & Hd & Hmiss & ->)]; mproj.
      * left. exists (p :: ps), w2. split; [simpl; congruence |].
        simpl. by rewrite <- !app_assoc.
      * right. exists d, w2, s2. split; [by right | done].
    + right. exists dir, w1, s'. split; [by left | done].
Qed.

Lemma official_eval_ensemble_cases model word2id pos ne s :
  (∃ (ps : list Pass) batch batcher w0 w' answers bytes,
     length ps = length (checkpoint_dirs (FLAGS.ckpt_load_dir (st_flags s)))
     ∧ answers = (generate_ensemble_answers model word2id batch batcher
                    pos ne (pass_records <$> ps) w0).1
     ∧ Json.utf8_encode (Json.dumps answers) = Some bytes
     ∧ official_eval_ensemble model word2id pos ne s
       = (inr tt,
          mkState _ (st_flags s) w'
            (st_trace s
             ++ concat (zip_with (pass_events (st_flags s) pos ne)
                          (checkpoint_dirs (FLAGS.ckpt_load_dir (st_flags s)))
                          ps)
             ++ aggregate_events (st_flags s) pos ne batch batcher
                  (pass_records <$> ps) answers
             ++ write_events (st_flags s) bytes)))
  ∨ (∃ dir w1 s',
       dir ∈ checkpoint_dirs (FLAGS.ckpt_load_dir (st_flags s))
       ∧ checkpoint_found dir w1 = false
       ∧ official_eval_ensemble model word2id pos ne s
         = (inl (Exception ("There is no saved checkpoint at " ++ dir)), s'))
  ∨ (∃ batch batcher partial_answers w0 s',
       Json.utf8_encode
         (Json.dumps (generate_ensemble_answers model word2id batch batcher
                        pos ne partial_answers w0).1) = None
       ∧ official_eval_ensemble model word2id pos ne s
         = (inl UnicodeEncodeError, s')).
Proof.
  unfold official_eval_ensemble. mrun.
  destruct (ensemble_passes_cases model word2id pos ne
              (checkpoint_dirs (FLAGS.ckpt_load_dir (st_flags s))) [] s)
    as [(ps & w1 & Hlen & ->) | (d & w1 & s' & Hd & Hmiss & ->)].
  - mcalls. mrun.
    match goal with
    | |- context [write_predictions ?d ?s1] =>
        pose proof (write_predictions_cases d s1) as Hw;
        destruct (Json.utf8_encode (Json.dumps d)) as [bytes|] eqn:Henc
    end; mproj_in Hw; rewrite Hw.
    + left. do 7 eexists. split; [exact Hlen |]. split; [reflexivity |].
      split; [exact Henc |].
      unfold aggregate_events, elmo_voca. simpl app.
      rewrite <- !app_assoc. reflexivity.
    + right; right. do 5 eexists. split; [exact Henc | reflexivity].
  - right; left. exists d, w1, s'. done.
Qed.

Lemma official_eval_single_cases model word2id pos ne s :
  FLAGS.single_ensemble (st_flags s) = "single" →
  (∃ batch batcher sess p w0 w' answers bytes,
     answers = (generate_answers sess model word2id batch batcher pos ne w0).1
     ∧ Json.utf8_encode (Json.dumps answers) = Some bytes
     ∧ official_eval_single model word2id pos ne s
       = (inr tt,
          mkState _ (st_flags s) w'
            (st_trace s
             ++ single_events (st_flags s) pos ne batch batcher sess p
                  answers bytes)))
  ∨ (∃ w1 s',
       checkpoint_found
         (Py.os_path_join (FLAGS.ckpt_load_dir (st_flags s))
            "ema_best_checkpoint_1") w1 = false
       ∧ official_eval_single model word2id pos ne s
         = (inl (Exception
                   ("There is no saved checkpoint at "
                    ++ Py.os_path_join (FLAGS.ckpt_load_dir (st_flags s))
                         "ema_best_checkpoint_1")), s'))
  ∨ (∃ sess batch batcher w0 s',
       Json.utf8_encode
         (Json.dumps (generate_answers sess model word2id batch batcher
                        pos ne w0).1) = None
       ∧ official_eval_single model word2id pos ne s
         = (inl UnicodeEncodeError, s')).
Proof.
  intros Hsingle. unfold official_eval_single. mrun.
  rewrite Hsingle, bool_decide_eq_true_2 by done. mcalls. mrun.
  match goal with
  | |- context [initialize_model ?a ?b ?c ?d ?s1] =>
      destruct (initialize_model_cases a b c d s1)
        as [(p & Hckpt & Hfound & ->) | (Hmiss & ->)]
  end; mproj.
  - mrun.
    match goal with
    | |- context [write_predictions ?d ?s1] =>
        pose proof (write_predictions_cases d s1) as Hw;
        destruct (Json.utf8_encode (Json.dumps d)) as [bytes|] eqn:Henc
    end; mproj_in Hw; rewrite Hw; mrun.
    + left. do 8 eexists. split; [reflexivity |]. split; [exact Henc |].
      unfold single_events, elmo_voca. mproj. simpl app.
      rewrite <- !app_assoc. reflexivity.
    + right; right. do 5 eexists. split; [exact Henc | reflexivity].
  - right; left. do 2 eexists. split; [exact Hmiss | reflexivity].
Qed.

End Evaluate.

(** ** The invariant along a whole run *)

Section RunKeeps.
Context `{C : Collaborators}.

Lemma keeps_official_eval f0 model word2id :
  keeps f0 (restore_agrees f0) (official_eval model word2id) (λ _, True).
Proof.
  assert (∀ ev, benign ev → restore_agrees f0 ev) as Hbenign
    by (by intros []).
  assert (∀ sess p, restore_agrees f0 (restore_event f0 sess p)) as Hrestore.
  { intros sess p. unfold restore_event.
    by destruct (FLAGS.load_ema_checkpoint f0) eqn:Hema. }
  unfold official_eval.
  eapply keeps_bind; [apply keeps_get_flags | intros ? ->].
  do 2 (apply keeps_if; intros _; [apply keeps_raise |]).
  eapply keeps_bind; [keeps_auto; done | intros lines _].
  apply keeps_if; intros _.
  - by apply keeps_official_eval_ensemble.
  - by apply keeps_official_eval_single.
Qed.

Lemma run_keeps flags w argv :
  length argv = 1%nat → sys_version_major = 3 → lacks_name flags = false →
  st_flags (run flags w argv).2 = setup_flags flags
  ∧ ∃ evs, st_trace (run flags w argv).2
           = preamble flags (model_of flags w).1 ++ evs
           ∧ Forall (restore_agrees flags) evs.
Proof.
  intros Hargv Hpy Hname. rewrite run_setup by done.
  assert (∀ ev, benign ev → restore_agrees (setup_flags flags) ev) as Hbenign
    by (by intros []).
  assert (∀ sess p, restore_agrees (setup_flags flags)
                      (restore_event (setup_flags flags) sess p)) as Hrestore.
  { intros sess p. unfold restore_event.
    by destruct (FLAGS.load_ema_checkpoint (setup_flags flags)) eqn:Hema. }
  match goal with
  | |- context [?prog (setup_state flags w)] =>
      assert (keeps (setup_flags flags) (restore_agrees (setup_flags flags))
                prog (λ _, True)) as Hkeeps
  end.
  { apply keeps_if; intros _; [by apply keeps_train_mode |].
    apply keeps_if; intros _; [by apply keeps_show_examples |].
    apply keeps_if; intros _; [apply keeps_official_eval | apply keeps_raise]. }
  destruct (Hkeeps (setup_state flags w) eq_refl) as (Hf & (evs & Ht & HP) & _).
  split; [exact Hf |]. exists evs. split; [exact Ht |]. exact HP.
Qed.

End RunKeeps.

(** ** Pre-flight checks *)

Section Preflight.
Context `{C : Collaborators}.

(** C1 (as amended).  An official_eval invocation (one positional
    argument, Python 3) whose [json_in_path] or [ckpt_load_dir] is empty
    raises the exception that names the missing flag.  At the raise the
    trace is exactly the banner, the load of the GloVe embeddings and the
    construction of the model: the embeddings and the model have been
    built, and no checkpoint has been looked up or restored. *)
Theorem official_eval_missing_path flags w argv :
  length argv = 1%nat → sys_version_major = 3 →
  FLAGS.mode flags = "official_eval" →
  FLAGS.json_in_path flags = "" ∨ FLAGS.ckpt_load_dir flags = "" →
  ∃ model w',
    run flags w argv
    = (inl (Exception
              (if bool_decide (FLAGS.json_in_path flags = "")
               then "For official_eval mode, you need to specify --json_in_path"
               else
                 "For official_eval mode, you need to specify --ckpt_load_dir")),
       mkState _ (setup_flags flags) w' (preamble flags model))
    ∧ Forall (λ ev, checkpoint_work ev = false) (preamble flags model)
    ∧ Exists (λ ev, model_work ev = true) (preamble flags model).
Proof.
  intros Hargv Hpy Hmode Hpath.
  exists (model_of flags w).1, (model_of flags w).2.
  split; [| split].
  - rewrite run_official_eval by done. unfold official_eval, setup_state.
    mrun. destruct (bool_decide (FLAGS.json_in_path flags = "")) eqn:Hin.
    + by mrun.
    + apply bool_decide_eq_false in Hin. destruct Hpath as [? | Hckpt]; [done |].
      rewrite Hckpt. by mrun.
  - unfold preamble. by repeat constructor.
  - unfold preamble. apply Exists_cons_tl, Exists_cons_hd. done.
Qed.

Lemma experiments_dir_shape :
  Py.truthy EXPERIMENTS_DIR = true ∧ Py.ends_with_sep EXPERIMENTS_DIR = false.
Proof.
  unfold EXPERIMENTS_DIR, Py.os_path_join. simpl.
  destruct (negb (Py.truthy MAIN_DIR) || Py.ends_with_sep MAIN_DIR).
  - split; [by destruct MAIN_DIR |].
    induction MAIN_DIR as [|a [|b rest'] IH]; simpl in *; done.
  - split; [by destruct MAIN_DIR |].
    induction MAIN_DIR as [|a [|b rest'] IH]; simpl in *; done.
Qed.


End Preflight.

(** ** C1 and C7 on concrete invocations *)

Lemma official_eval_missing_path_witness :
  (run (C := toy [] [] [] []) (eval_flags "" "ckpts" "ensemble") tt
     ["main.py"]).1
  = inl (Exception
           "For official_eval mode, you need to specify --json_in_path").
Proof.
  destruct (official_eval_missing_path (C := toy [] [] [] [])
              (eval_flags "" "ckpts" "ensemble") tt ["main.py"]
              eq_refl eq_refl eq_refl (or_introl eq_refl))
    as (model & w' & Hrun & _).
  rewrite Hrun. reflexivity.
Defined.

(** C1 as stated fails: on an official_eval invocation without
    [json_in_path] the exception is raised, and no checkpoint has been
    touched, but the embeddings have been loaded and the model has been
    constructed by then. *)
Lemma official_eval_missing_path_model_built :
  let flags := eval_flags "" "ckpts" "ensemble" in
  let r := run (C := toy [] [] [] []) flags tt ["main.py"] in
  FLAGS.mode flags = "official_eval" ∧ FLAGS.json_in_path flags = ""
  ∧ r.1 = inl (Exception
                 "For official_eval mode, you need to specify --json_in_path")
  ∧ Forall (λ ev, checkpoint_work ev = false) (st_trace r.2)
  ∧ ¬ Forall (λ ev, model_work ev = false) (st_trace r.2).
Proof.
  cbv zeta. split; [reflexivity |]. split; [reflexivity |].
  split; [reflexivity |]. split.
  - vm_compute. by repeat constructor.
  - intros Hnone. vm_compute in Hnone.
    apply Forall_cons_1 in Hnone as [_ Hnone].
    apply Forall_cons_1 in Hnone as [Hglove _]. discriminate Hglove.
Qed.



(** ** Loading checkpoints *)

Section Loading.
Context `{C : Collaborators}.

Lemma show_examples_looks model best ema p1 p2 p3 s :
  ∃ sess rest,
    st_trace (show_examples model best ema p1 p2 p3 s).2
    = st_trace s
      ++ [Session_enter sess;
          Stdout ("Looking for model at "
                  ++ (if FLAGS.load_ema_checkpoint (st_flags s)
                      then ema else best)
                  ++ "...");
          Get_checkpoint_state
            (if FLAGS.load_ema_checkpoint (st_flags s) then ema else best)]
      ++ rest.
Proof.
  unfold show_examples. mcalls. mrun.
  exists (tf_Session (st_world s)).1.
  destruct (FLAGS.load_ema_checkpoint (st_flags s));
    match goal with
    | |- context [initialize_model ?a ?b ?c ?d ?s1] =>
        destruct (initialize_model_cases a b c d s1)
          as [(p & Hckpt & Hfound & ->) | (Hmiss & ->)]
    end; mrun; unfold load_events, miss_events;
    rewrite <- !app_assoc; simpl app; eexists; reflexivity.
Qed.

(** C5.  When [initialize_model] finds no checkpoint in [dir]: a required
    load ([expect_exists] true) raises the exception whose message ends
    with the directory searched, having done no more than look; a load
    that is not required initialises the variables afresh, prints the
    parameter count and returns. *)
Theorem initialize_model_no_checkpoint sess model dir expect s :
  checkpoint_found dir (st_world s) = false →
  (expect = true →
   initialize_model sess model dir expect s
   = (inl (Exception ("There is no saved checkpoint at " ++ dir)),
      mkState _ (st_flags s) (st_world s)
        (st_trace s
         ++ [Stdout ("Looking for model at " ++ dir ++ "...");
             Get_checkpoint_state dir])))
  ∧ (expect = false →
     initialize_model sess model dir expect s
     = (inr tt,
        mkState _ (st_flags s)
          (run_global_variables_initializer sess (st_world s))
          (st_trace s
           ++ [Stdout ("Looking for model at " ++ dir ++ "...");
               Get_checkpoint_state dir;
               Stdout ("There is no saved checkpoint at " ++ dir
                       ++ ". Creating model with fresh parameters.");
               Run_global_variables_initializer sess;
               Stdout ("Num params: "
                       ++ Py.str_of_int
                            (foldr Z.add 0
                               (trainable_variables_num_elements
                                  (run_global_variables_initializer sess
                                     (st_world s)))))]))).
Proof.
  intros Hmiss. rewrite initialize_model_missing by done.
  split; intros ->; reflexivity.
Qed.

(** C6.  One switch decides between the EMA and the raw weights at every
    load.  (1) An [initialize_model] that finds a checkpoint at path [p]
    restores the EMA shadow variables from [p] when [load_ema_checkpoint]
    is on and the raw weights from [p] when it is off.  (2) In every run
    of [main], in any mode, each restore in the trace is the one the
    switch given on the command line selects.  (3) In show_examples mode
    the checkpoint is looked for in [train_dir/ema_best_checkpoint] when
    the switch is on and in [train_dir/best_checkpoint] when it is off. *)
Theorem load_ema_checkpoint_switch :
  (∀ sess model dir expect s p,
     tf_train_get_checkpoint_state dir (st_world s) = Some p →
     checkpoint_found dir (st_world s) = true →
     initialize_model sess model dir expect s
     = (inr tt,
        mkState _ (st_flags s)
          (if FLAGS.load_ema_checkpoint (st_flags s)
           then ema_restorer_restore model sess p (st_world s)
           else model_saver_restore model sess p (st_world s))
          (st_trace s
           ++ [Stdout ("Looking for model at " ++ dir ++ "...");
               Get_checkpoint_state dir;
               Stdout ("Reading model parameters from " ++ p);
               if FLAGS.load_ema_checkpoint (st_flags s)
               then Restore_ema sess p else Restore_raw sess p])))
  ∧ (∀ flags w argv,
       Forall (restore_agrees flags) (st_trace (run flags w argv).2))
  ∧ (∀ flags w argv,
       length argv = 1%nat → sys_version_major = 3 →
       lacks_name flags = false → FLAGS.mode flags = "show_examples" →
       ∃ model sess rest,
         st_trace (run flags w argv).2
         = preamble flags model
           ++ [Session_enter sess;
               Stdout ("Looking for model at "
                       ++ Py.os_path_join
                            (FLAGS.train_dir (with_train_dir flags))
                            (if FLAGS.load_ema_checkpoint flags
                             then "ema_best_checkpoint"
                             else "best_checkpoint")
                       ++ "...");
               Get_checkpoint_state
                 (Py.os_path_join
                    (FLAGS.train_dir (with_train_dir flags))
                    (if FLAGS.load_ema_checkpoint flags
                     then "ema_best_checkpoint" else "best_checkpoint"))]
           ++ rest).
Proof.
  split; [| split].
  - intros sess model dir expect s p Hckpt Hfound.
    unfold checkpoint_found in Hfound. rewrite Hckpt in Hfound.
    by rewrite (initialize_model_found _ _ _ _ _ p).
  - intros flags w argv.
    destruct (decide (length argv = 1%nat)) as [Hargv | Hargv].
    + destruct (decide (sys_version_major = 3)) as [Hpy | Hpy].
      * destruct (lacks_name flags) eqn:Hlacks.
        -- rewrite run_lacks_name by done. by repeat constructor.
        -- destruct (run_keeps flags w argv Hargv Hpy Hlacks)
             as (_ & evs & -> & Hevs).
           apply Forall_app. split; [by repeat constructor | done].
      * unfold run, main.
        rewrite bool_decide_eq_false_2 by (rewrite Hargv; tauto).
        rewrite bool_decide_eq_true_2 by done. constructor.
    + unfold run, main. rewrite bool_decide_eq_true_2 by done. constructor.
  - intros flags w argv Hargv Hpy Hlacks Hmode.
    rewrite run_setup by done. rewrite Hmode.
    rewrite bool_decide_eq_false_2, bool_decide_eq_true_2 by done.
    destruct (show_examples_looks (model_of flags w).1 (bestmodel_dir flags)
                (ema_bestmodel_dir flags)
                (Py.os_path_join (FLAGS.data_dir flags) "dev.context")
                (Py.os_path_join (FLAGS.data_dir flags) "dev.question")
                (Py.os_path_join (FLAGS.data_dir flags) "dev.span")
                (setup_state flags w)) as (sess & rest & ->).
    exists (model_of flags w).1, sess, rest.
    unfold setup_state, bestmodel_dir, ema_bestmodel_dir. mproj.
    rewrite setup_flags_load_ema_checkpoint.
    by destruct (FLAGS.load_ema_checkpoint flags).
Qed.

End Loading.

(** ** C5 and C6 on concrete invocations *)

Lemma initialize_model_no_checkpoint_witness :
  let s := mkState (toy [] [] [] []) (mode_flags "train" "baseline" "" true)
             tt [] in
  (initialize_model (C := toy [] [] [] []) tt tt
     "./experiments/baseline/best_checkpoint" true s).1
  = inl (Exception ("There is no saved checkpoint at "
                    ++ "./experiments/baseline/best_checkpoint"))
  ∧ (initialize_model (C := toy [] [] [] []) tt tt "./experiments/baseline"
       false s).1 = inr tt.
Proof.
  cbv zeta. split.
  - destruct (initialize_model_no_checkpoint (C := toy [] [] [] []) tt tt
                "./experiments/baseline/best_checkpoint" true
                (mkState (toy [] [] [] [])
                   (mode_flags "train" "baseline" "" true) tt [])
                eq_refl) as [Hraise _].
    rewrite Hraise by reflexivity. reflexivity.
  - destruct (initialize_model_no_checkpoint (C := toy [] [] [] []) tt tt
                "./experiments/baseline" false
                (mkState (toy [] [] [] [])
                   (mode_flags "train" "baseline" "" true) tt [])
                eq_refl) as [_ Hfresh].
    rewrite Hfresh by reflexivity. reflexivity.
Defined.

Section Trained.
#[local] Existing Instance trained.

Lemma load_ema_checkpoint_switch_witness :
  let s b := mkState _ (mode_flags "show_examples" "baseline" "" b) tt [] in
  st_trace
    (initialize_model tt tt "./experiments/baseline/ema_best_checkpoint"
       true (s true)).2
  = [Stdout "Looking for model at ./experiments/baseline/ema_best_checkpoint...";
     Get_checkpoint_state "./experiments/baseline/ema_best_checkpoint";
     Stdout ("Reading model parameters from "
             ++ "./experiments/baseline/ema_best_checkpoint/qa.ckpt-1");
     Restore_ema tt "./experiments/baseline/ema_best_checkpoint/qa.ckpt-1"]
  ∧ st_trace
      (initialize_model tt tt "./experiments/baseline/best_checkpoint"
         true (s false)).2
    = [Stdout "Looking for model at ./experiments/baseline/best_checkpoint...";
       Get_checkpoint_state "./experiments/baseline/best_checkpoint";
       Stdout ("Reading model parameters from "
               ++ "./experiments/baseline/best_checkpoint/qa.ckpt-1");
       Restore_raw tt "./experiments/baseline/best_checkpoint/qa.ckpt-1"]
  ∧ ∃ rest,
      st_trace (run (mode_flags "show_examples" "baseline" "" false) tt
                  ["main.py"]).2
      = preamble (mode_flags "show_examples" "baseline" "" false) tt
        ++ [Session_enter tt;
            Stdout
              "Looking for model at ./experiments/baseline/best_checkpoint...";
            Get_checkpoint_state "./experiments/baseline/best_checkpoint"]
        ++ rest.
Proof.
  cbv zeta.
  pose proof (load_ema_checkpoint_switch (C := trained))
    as (Hload & _ & Hshow).
  split; [| split].
  - rewrite (Hload tt tt "./experiments/baseline/ema_best_checkpoint" true _
               "./experiments/baseline/ema_best_checkpoint/qa.ckpt-1");
      reflexivity.
  - rewrite (Hload tt tt "./experiments/baseline/best_checkpoint" true _
               "./experiments/baseline/best_checkpoint/qa.ckpt-1");
      reflexivity.
  - destruct (Hshow (mode_flags "show_examples" "baseline" "" false) tt
                ["main.py"] eq_refl eq_refl eq_refl eq_refl)
      as ([] & [] & rest & Htrace).
    exists rest. exact Htrace.
Defined.

End Trained.

(** ** The sub-mode flag *)

Section SubMode.
Context `{C : Collaborators}.

(** C8.  In official_eval mode with both paths set, every value of
    [single_ensemble] other than ["ensemble"] takes the [else] branch,
    whose first statement asserts that the value is ["single"].  A value
    outside the two, the default empty string among them, therefore ends
    the run with [AssertionError]; by then the trace is the banner, the
    GloVe load, the model construction and the read of the tag file, and
    nothing else. *)
Theorem single_ensemble_assertion flags w argv :
  length argv = 1%nat → sys_version_major = 3 →
  FLAGS.mode flags = "official_eval" →
  FLAGS.json_in_path flags ≠ "" → FLAGS.ckpt_load_dir flags ≠ "" →
  FLAGS.single_ensemble flags ≠ "ensemble" →
  run flags w argv
  = official_eval_single (model_of flags w).1 (word2id_of flags w)
      (build_pos_tag_id_map (pos_tag_lines_of flags w)) build_ne_tag_id_map
      (tables_state flags w)
  ∧ (FLAGS.single_ensemble flags ≠ "single" →
     ∃ model w',
       run flags w argv
       = (inl AssertionError,
          mkState _ (setup_flags flags) w'
            (preamble flags model
             ++ [Open_readlines
                   (Py.os_path_join (FLAGS.main_dir flags) "pos_tags.txt")])))
  ∧ FLAGS.single_ensemble (FLAGS.defaults MAIN_DIR) = "".
Proof.
  intros Hargv Hpy Hmode Hin Hckpt Hens.
  rewrite run_tables by done. rewrite bool_decide_eq_false_2 by done.
  split; [done |]. split; [| done].
  intros Hsingle. exists (model_of flags w).1, (model_of flags w).2.
  unfold official_eval_single, tables_state. mrun.
  by rewrite bool_decide_eq_false_2 by done.
Qed.

End SubMode.

Lemma single_ensemble_assertion_witness :
  (run (C := toy [] ["NN"; "VB"] [] []) (eval_flags "dev.json" "ckpts" "") tt
     ["main.py"]).1
  = inl AssertionError.
Proof.
  destruct (single_ensemble_assertion (C := toy [] ["NN"; "VB"] [] [])
              (eval_flags "dev.json" "ckpts" "") tt ["main.py"]
              eq_refl eq_refl eq_refl)
    as (_ & Hassert & _); [discriminate | discriminate | discriminate |].
  destruct Hassert as (model & w' & ->); [discriminate | reflexivity].
Defined.

(** ** The two evaluate sub-modes *)

Section EvaluateModes.
Context `{C : Collaborators}.

Lemma aggregations_app t1 t2 :
  aggregations (t1 ++ t2) = aggregations t1 ++ aggregations t2.
Proof. unfold aggregations. apply bind_app. Qed.

Lemma aggregations_load_events flags sess dir p :
  aggregations (load_events flags sess dir p) = [].
Proof.
  unfold load_events, restore_event.
  by destruct (FLAGS.load_ema_checkpoint flags).
Qed.

Lemma aggregations_pass_events flags pos ne dirs ps :
  aggregations (concat (zip_with (pass_events flags pos ne) dirs ps)) = [].
Proof.
  revert ps. induction dirs as [|dir dirs IH]; intros [|p ps]; try done.
  cbn [concat zip_with]. rewrite aggregations_app, IH, app_nil_r.
  unfold pass_events.
  by rewrite !aggregations_app, aggregations_load_events.
Qed.

Lemma aggregations_none evs :
  Forall (λ ev, aggregations [ev] = []) evs → aggregations evs = [].
Proof.
  induction 1 as [|ev evs Hev _ IH]; [done |].
  change (ev :: evs) with ([ev] ++ evs).
  by rewrite aggregations_app, Hev, IH.
Qed.

Lemma official_eval_ensemble_raises model word2id pos ne s e s' :
  official_eval_ensemble model word2id pos ne s = (inl e, s') →
  (e = UnicodeEncodeError
   ∧ ∃ l, length l
          = length (checkpoint_dirs (FLAGS.ckpt_load_dir (st_flags s)))
          ∧ aggregations (st_trace s') = aggregations (st_trace s) ++ [l])
  ∨ (e ≠ UnicodeEncodeError
     ∧ aggregations (st_trace s') = aggregations (st_trace s)).
Proof.
  unfold official_eval_ensemble.
  rewrite run_bind, run_get_flags. mproj. rewrite run_bind.
  destruct (ensemble_passes_cases model word2id pos ne
              (checkpoint_dirs (FLAGS.ckpt_load_dir (st_flags s))) [] s)
    as [(ps & w1 & Hlen & ->) | (d & w1 & s1 & Hd & Hmiss & Hrun)].
  - unfold call_get_json_data, new_Batcher, call_generate_ensemble_answers.
    mfast.
    match goal with
    | |- context [write_predictions ?d ?s2] =>
        pose proof (write_predictions_cases d s2) as Hw;
        destruct (Json.utf8_encode (Json.dumps d)) as [bytes|]
    end; mproj_in Hw; rewrite Hw; [intros [=] |].
    intros Hrun. apply pair_equal_spec in Hrun as [He <-].
    injection He as <-. left. split; [done |].
    exists (pass_records <$> ps). split; [by rewrite length_fmap |].
    mproj. rewrite !aggregations_app, aggregations_pass_events.
    cbn. by rewrite !app_nil_r.
  - destruct (keeps_ensemble_passes (st_flags s)
                (λ ev, aggregations [ev] = [])
                ltac:(by intros []) ltac:(by intros; unfold restore_event;
                                          destruct (FLAGS.load_ema_checkpoint _))
                pos ne ltac:(done) model word2id
                (checkpoint_dirs (FLAGS.ckpt_load_dir (st_flags s))) [] s
                eq_refl) as (_ & (evs & Ht & Hevs) & _).
    rewrite Hrun in Ht |- *. simpl in Ht.
    intros Hraise. apply pair_equal_spec in Hraise as [He <-].
    injection He as <-. right.
    split; [done |].
    by rewrite Ht, aggregations_app, (aggregations_none evs), app_nil_r.
Qed.



End EvaluateModes.

(** ** C2 and C4 on a concrete deployment *)

Section Deployed.
#[local] Existing Instance deployed.

Lemma deployed_checkpoints dir (w' : World) :
  dir ∈ checkpoint_dirs "ckpts" → checkpoint_found dir w' = true.
Proof.
  intros Hdir. vm_compute in Hdir.
  repeat (apply elem_of_cons in Hdir as [-> | Hdir]; [reflexivity |]).
  by apply elem_of_nil in Hdir.
Qed.



End Deployed.

(** ** The tag tables *)

Section TagTables.
Context `{C : Collaborators}.

(** The table built by [table[key(items[i])] = i + 1] for [i] in
    [range(len(items))]. *)
Lemma index_table_snoc (key : string → string) items item :
  foldl (λ (m : TagMap) '(i, x), <[key x := Z.of_nat i + 1]> m) ∅
    (zip (seq 0 (length (items ++ [item]))) (items ++ [item]))
  = <[key item := Z.of_nat (length items) + 1]>
      (foldl (λ (m : TagMap) '(i, x), <[key x := Z.of_nat i + 1]> m) ∅
         (zip (seq 0 (length items)) items)).
Proof.
  rewrite length_app, Nat.add_1_r, seq_S.
  rewrite zip_with_app by by rewrite length_seq.
  by rewrite foldl_app.
Qed.

Lemma index_table_lookup (key : string → string) items tag id :
  foldl (λ (m : TagMap) '(i, x), <[key x := Z.of_nat i + 1]> m) ∅
    (zip (seq 0 (length items)) items) !! tag = Some id
  ↔ ∃ i item,
      items !! i = Some item ∧ key item = tag ∧ id = Z.of_nat i + 1
      ∧ ∀ j item', (i < j)%nat → items !! j = Some item' → key item' ≠ tag.
Proof.
  revert id. induction items as [|item items IH] using rev_ind; intros id.
  - simpl. rewrite lookup_empty. split; [done |].
    by intros (i & item & Hi & _).
  - rewrite index_table_snoc.
    destruct (decide (key item = tag)) as [Hkey | Hkey].
    + rewrite Hkey, lookup_insert_eq. split.
      * intros [= <-]. exists (length items), item.
        split; [by rewrite lookup_app_r, Nat.sub_diag by lia |].
        split; [done |]. split; [done |].
        intros j item' Hj Hlook. apply lookup_lt_Some in Hlook.
        rewrite length_app in Hlook. simpl in Hlook. lia.
      * intros (i & item' & Hi & Hk & -> & Hlast).
        destruct (decide (i = length items)) as [-> | Hne]; [done |].
        exfalso. apply (Hlast (length items) item); [| | done].
        -- apply lookup_lt_Some in Hi. rewrite length_app in Hi.
           simpl in Hi. lia.
        -- by rewrite lookup_app_r, Nat.sub_diag by lia.
    + rewrite lookup_insert_ne by done. rewrite IH. split.
      * intros (i & item' & Hi & Hk & -> & Hlast).
        exists i, item'. split; [by apply lookup_app_l_Some |].
        split; [done |]. split; [done |].
        intros j item'' Hj Hlook.
        apply lookup_app_Some in Hlook as [Hlook | [Hlen Hlook]].
        -- by eapply Hlast.
        -- apply list_lookup_singleton_Some in Hlook as [_ <-]. done.
      * intros (i & item' & Hi & Hk & -> & Hlast).
        apply lookup_app_Some in Hi as [Hi | [Hlen Hi]].
        -- exists i, item'. split; [done |]. split; [done |].
           split; [done |]. intros j item'' Hj Hlook.
           eapply Hlast; [exact Hj |]. by apply lookup_app_l_Some.
        -- apply list_lookup_singleton_Some in Hi as [_ <-]. done.
Qed.

Lemma index_table_distinct (key : string → string) items i item :
  NoDup (key <$> items) → items !! i = Some item →
  foldl (λ (m : TagMap) '(i, x), <[key x := Z.of_nat i + 1]> m) ∅
    (zip (seq 0 (length items)) items) !! key item
  = Some (Z.of_nat i + 1).
Proof.
  intros Hnodup Hi. apply index_table_lookup. exists i, item.
  split; [done |]. split; [done |]. split; [done |].
  intros j item' Hj Hlook Hkey.
  assert (i = j); [| lia].
  eapply NoDup_lookup; [exact Hnodup | |].
  - by rewrite list_lookup_fmap, Hi.
  - rewrite list_lookup_fmap, Hlook. simpl. by rewrite Hkey.
Qed.

(** C9 (as amended).  The part-of-speech table maps a tag to [i + 1]
    where [i] is the index of the last line of the tag file that, with
    its final character stripped, is that tag, and it holds no other
    entry; so when the stripped lines are pairwise distinct, the tag of
    every line is mapped to its line index plus one.  The named-entity
    table is built from the thirteen hardcoded tags, which are pairwise
    distinct, and maps the tag at index [i] to [i + 1].  In an
    official_eval run with both paths set the tag file is read once,
    right after the construction of the model, and never again, and every
    inference and aggregation call of the run is given the two tables
    built then. *)
Theorem tag_tables :
  (∀ lines tag id,
     build_pos_tag_id_map lines !! tag = Some id
     ↔ ∃ i line,
         lines !! i = Some line ∧ Py.drop_last line = tag
         ∧ id = Z.of_nat i + 1
         ∧ ∀ j line', (i < j)%nat → lines !! j = Some line' →
                      Py.drop_last line' ≠ tag)
  ∧ (∀ lines i line,
       NoDup (Py.drop_last <$> lines) → lines !! i = Some line →
       build_pos_tag_id_map lines !! Py.drop_last line
       = Some (Z.of_nat i + 1))
  ∧ (length all_NE_tag = 13%nat
     ∧ size build_ne_tag_id_map = 13%nat
     ∧ ∀ tag id,
         build_ne_tag_id_map !! tag = Some id
         ↔ ∃ i, all_NE_tag !! i = Some tag ∧ id = Z.of_nat i + 1)
  ∧ (∀ flags w argv,
       length argv = 1%nat → sys_version_major = 3 →
       FLAGS.mode flags = "official_eval" →
       FLAGS.json_in_path flags ≠ "" → FLAGS.ckpt_load_dir flags ≠ "" →
       ∃ evs,
         st_trace (run flags w argv).2
         = preamble flags (model_of flags w).1
           ++ [Open_readlines (pos_tags_path flags)] ++ evs
         ∧ Forall (uses_tables (pos_tag_lines_of flags w)) evs).
Proof.
  assert (NoDup all_NE_tag) as Hne.
  { apply (bool_decide_unpack _). by vm_compute. }
  split; [| split; [| split]].
  - intros lines tag id. apply (index_table_lookup Py.drop_last).
  - intros lines i line. apply (index_table_distinct Py.drop_last).
  - split; [reflexivity |]. split; [by vm_compute |].
    intros tag id.
    change build_ne_tag_id_map
      with (foldl (λ (m : TagMap) '(i, x), <[(λ t : string, t) x := Z.of_nat i + 1]> m) ∅
              (zip (seq 0 (length all_NE_tag)) all_NE_tag)).
    rewrite (index_table_lookup (λ t, t)). split.
    + intros (i & item & Hi & <- & -> & _). by exists i.
    + intros (i & Hi & ->). exists i, tag. split; [done |].
      split; [done |]. split; [done |].
      intros j tag' Hj Hlook ->.
      assert (i = j); [| lia].
      eapply NoDup_lookup; [exact Hne | exact Hi | exact Hlook].
  - intros flags w argv Hargv Hpy Hmode Hin Hckpt.
    rewrite run_tables by done.
    set (lines := pos_tag_lines_of flags w).
    assert (∀ ev, benign ev → uses_tables lines ev) as Hb by by intros [].
    assert (∀ sess p,
              uses_tables lines (restore_event (setup_flags flags) sess p))
      as Hr.
    { intros sess p. unfold restore_event.
      by destruct (FLAGS.load_ema_checkpoint (setup_flags flags)). }
    destruct (bool_decide (FLAGS.single_ensemble flags = "ensemble")).
    + destruct (keeps_official_eval_ensemble (setup_flags flags)
                  (uses_tables lines) Hb Hr
                  (build_pos_tag_id_map lines) build_ne_tag_id_map
                  ltac:(done) ltac:(done)
                  (model_of flags w).1 (word2id_of flags w)
                  (tables_state flags w) eq_refl)
        as (_ & (evs & -> & Hevs) & _).
      exists evs. split; [| done]. unfold tables_state. mproj.
      by rewrite <- app_assoc.
    + destruct (keeps_official_eval_single (setup_flags flags)
                  (uses_tables lines) Hb Hr
                  (build_pos_tag_id_map lines) build_ne_tag_id_map
                  ltac:(done)
                  (model_of flags w).1 (word2id_of flags w)
                  (tables_state flags w) eq_refl)
        as (_ & (evs & -> & Hevs) & _).
      exists evs. split; [| done]. unfold tables_state. mproj.
      by rewrite <- app_assoc.
Qed.

End TagTables.

Lemma tag_tables_witness :
  let lines := [("NN" ++ LF)%string; ("VB" ++ LF)%string] in
  build_pos_tag_id_map lines !! "VB" = Some 2
  ∧ build_ne_tag_id_map !! "O" = Some 13
  ∧ ∃ evs,
      st_trace (run (C := deployed) (eval_flags "dev.json" "ckpts" "single")
                  tt ["main.py"]).2
      = preamble (C := deployed) (eval_flags "dev.json" "ckpts" "single") tt
        ++ [Open_readlines (C := deployed) "./pos_tags.txt"] ++ evs
      ∧ Forall (uses_tables (C := deployed) lines) evs.
Proof.
  cbv zeta.
  destruct (tag_tables (C := deployed))
    as (Hpos & Hdistinct & (Hlen & Hsize & Hne) & Hrun).
  split; [| split].
  - apply (Hdistinct [("NN" ++ LF)%string; ("VB" ++ LF)%string] 1%nat
             ("VB" ++ LF)%string); [| reflexivity].
    apply (bool_decide_unpack _). by vm_compute.
  - apply Hne. exists 12%nat. split; reflexivity.
  - apply (Hrun (eval_flags "dev.json" "ckpts" "single") tt ["main.py"]);
      [reflexivity | reflexivity | reflexivity | discriminate | discriminate].
Defined.

(** C9 as stated fails: in a tag file whose first and third lines both
    read [NN], the tag of the first line is mapped to 3, the index of the
    third line plus one, not to 1. *)
Lemma pos_tag_repeated :
  let lines :=
    [("NN" ++ LF)%string; ("VB" ++ LF)%string; ("NN" ++ LF)%string] in
  lines !! 0%nat = Some ("NN" ++ LF)%string
  ∧ build_pos_tag_id_map lines !! Py.drop_last ("NN" ++ LF)%string = Some 3
  ∧ build_pos_tag_id_map lines !! Py.drop_last ("NN" ++ LF)%string
    ≠ Some (Z.of_nat 0 + 1).
Proof.
  cbv zeta. split; [reflexivity |].
  split; [by vm_compute | vm_compute; discriminate].
Qed.

(** ** The aggregator of the design document *)

Section Dict.

Lemma dict_set_keys k v d u :
  u ∈ Py.keys (Py.dict_set k v d) ↔ u = k ∨ u ∈ Py.keys d.
Proof.
  unfold Py.keys. induction d as [|[k' v'] d IH]; simpl.
  - rewrite list_elem_of_singleton, elem_of_nil. tauto.
  - destruct (decide (k = k')) as [<- | Hne]; simpl.
    + rewrite !elem_of_cons. tauto.
    + rewrite !elem_of_cons, IH. tauto.
Qed.

Lemma dict_set_NoDup k v d :
  NoDup (Py.keys d) → NoDup (Py.keys (Py.dict_set k v d)).
Proof.
  unfold Py.keys. induction d as [|[k' v'] d IH]; simpl; intros Hd.
  - apply NoDup_singleton.
  - apply NoDup_cons in Hd as [Hk' Hd].
    destruct (decide (k = k')) as [<- | Hne]; simpl.
    + by apply NoDup_cons.
    + apply NoDup_cons. split; [| by apply IH].
      intros Hin. apply (dict_set_keys k v d k') in Hin as [-> | Hin]; done.
Qed.

Lemma dict_of_entries_keys (entries : list (Py.text * Py.text)) d0 u :
  u ∈ Py.keys (foldl (λ d '(k, a), Py.dict_set k a d) d0 entries)
  ↔ u ∈ Py.keys d0 ∨ u ∈ entries.*1.
Proof.
  revert d0. induction entries as [|[k a] entries IH]; intros d0; simpl.
  - rewrite elem_of_nil. tauto.
  - rewrite IH, dict_set_keys, elem_of_cons. tauto.
Qed.

Lemma dict_of_entries_NoDup (entries : list (Py.text * Py.text)) d0 :
  NoDup (Py.keys d0) →
  NoDup (Py.keys (foldl (λ d '(k, a), Py.dict_set k a d) d0 entries)).
Proof.
  revert d0. induction entries as [|[k a] entries IH]; intros d0 Hd; simpl.
  - done.
  - by apply IH, dict_set_NoDup.
Qed.

End Dict.

Section Totality.
Variable favor : list Spec.AnswerRecord → Spec.AnswerRecord → Q.

Lemma select_is_Some cands : cands ≠ [] → is_Some (Spec.select favor cands).
Proof. destruct cands; [done |]. simpl. eauto. Qed.

Lemma candidates_Some models u cands :
  Spec.candidates models u = Some cands →
  length cands = length models ∧ ∀ m, m ∈ models → is_Some (m !! u).
Proof.
  unfold Spec.candidates. rewrite mapM_Some. intros Hall. split.
  - symmetry. by eapply Forall2_length.
  - intros m Hm. apply list_elem_of_lookup in Hm as [i Hi].
    destruct (Forall2_lookup_l _ _ _ _ _ Hall Hi) as (c & _ & Hc). eauto.
Qed.

Lemma final_answer_is_Some models u :
  is_Some (Spec.final_answer favor models u)
  ↔ models ≠ [] ∧ ∀ m, m ∈ models → is_Some (m !! u).
Proof.
  unfold Spec.final_answer. split.
  - intros [a Ha]. apply bind_Some in Ha as (cands & Hc & Hs).
    apply candidates_Some in Hc as [Hlen Hall]. split; [| done].
    intros ->. destruct cands; [| done]. done.
  - intros [Hne Hall].
    assert (is_Some (Spec.candidates models u)) as [cands Hc].
    { unfold Spec.candidates. apply mapM_is_Some, Forall_forall. exact Hall. }
    rewrite Hc. simpl.
    pose proof (candidates_Some _ _ _ Hc) as [Hlen _].
    destruct (select_is_Some cands) as [c ->]; [| by eexists].
    intros ->. by destruct models.
Qed.

Lemma generate_ensemble_answers_covers uuids models :
  models ≠ [] →
  (∀ m u, m ∈ models → u ∈ uuids → is_Some (m !! u)) →
  ∃ d,
    Spec.generate_ensemble_answers favor uuids models = inr d
    ∧ Spec.covers uuids d.
Proof.
  unfold Spec.generate_ensemble_answers, Spec.covers. intros Hne Hcover.
  destruct (mapM (λ u, (λ a, (u, a)) <$> Spec.final_answer favor models u)
              uuids) as [entries|] eqn:Hentries.
  - eexists. split; [reflexivity |]. split.
    + apply dict_of_entries_NoDup, NoDup_nil_2.
    + intros u. rewrite dict_of_entries_keys.
      apply mapM_Some in Hentries.
      assert (entries.*1 = uuids) as ->.
      { clear Hcover.
        induction Hentries as [|u' e us es He _ IH]; simpl; [done |].
        apply fmap_Some in He as (a & _ & ->). simpl. by f_equal. }
      unfold Py.keys. simpl. rewrite elem_of_nil. tauto.
  - exfalso. apply eq_None_not_Some in Hentries. apply Hentries.
    apply mapM_is_Some, Forall_forall. intros u Hu. simpl.
    apply fmap_is_Some, final_answer_is_Some. split; [done |].
    intros m Hm. by apply Hcover.
Qed.

Lemma generate_ensemble_answers_gap uuids models m u :
  m ∈ models → u ∈ uuids → m !! u = None →
  Spec.generate_ensemble_answers favor uuids models
  = inl Spec.IncompleteEnsembleDataError.
Proof.
  unfold Spec.generate_ensemble_answers. intros Hm Hu Hnone.
  destruct (mapM _ uuids) as [entries|] eqn:Hentries; [| done].
  exfalso. apply mk_is_Some, mapM_is_Some in Hentries.
  rewrite Forall_forall in Hentries. specialize (Hentries u Hu).
  simpl in Hentries.
  apply fmap_is_Some, final_answer_is_Some in Hentries as [_ Hall].
  specialize (Hall m Hm). rewrite Hnone in Hall. by destruct Hall.
Qed.

(** C3.  The aggregator of the design document, for every scoring rule
    and whatever the answers of the models are: given at least one model
    and record sets that each hold a record for every uuid of the batch,
    it returns a mapping whose keys are the uuids of the batch, each
    once; no uuid is dropped, none is added, none appears twice.  A record
    set that lacks a uuid of the batch is fatal: the aggregator returns
    the error, not a smaller mapping. *)
Theorem ensemble_totality uuids models :
  (models ≠ [] →
   (∀ m u, m ∈ models → u ∈ uuids → is_Some (m !! u)) →
   ∃ d,
     Spec.generate_ensemble_answers favor uuids models = inr d
     ∧ Spec.covers uuids d)
  ∧ (∀ m u,
       m ∈ models → u ∈ uuids → m !! u = None →
       Spec.generate_ensemble_answers favor uuids models
       = inl Spec.IncompleteEnsembleDataError).
Proof.
  split.
  - apply generate_ensemble_answers_covers.
  - apply generate_ensemble_answers_gap.
Qed.

End Totality.

Lemma ensemble_totality_witness :
  let paris := Spec.mkRecord (Json.lit "Paris") (0, 0) (9 # 10) in
  let france := Spec.mkRecord (Json.lit "France") (3, 3) (8 # 10) in
  let models : list Spec.RecordSet :=
    [{[Json.lit "q1" := paris]}; {[Json.lit "q1" := france]};
     {[Json.lit "q1" := paris]}] in
  ∃ d,
    Spec.generate_ensemble_answers Spec.majority_vote [Json.lit "q1"] models
    = inr d
    ∧ Spec.covers [Json.lit "q1"] d.
Proof.
  cbv zeta.
  apply (proj1 (ensemble_totality Spec.majority_vote [Json.lit "q1"] _)).
  - discriminate.
  - intros m u Hm Hu. apply list_elem_of_singleton in Hu as ->.
    repeat (apply elem_of_cons in Hm as [-> | Hm]);
      [| | | by apply elem_of_nil in Hm];
      rewrite lookup_singleton_eq; eauto.
Defined.

(** * Further properties of the controller *)

(** ** [initialize_model]: when it raises *)

Section InitializeModelOutcome.
Context `{C : Collaborators}.

(** [initialize_model] raises exactly when the load is required and no
    checkpoint is found, and then with the exception that names the
    directory; it never changes the flags. *)
Theorem initialize_model_raises_iff sess model dir expect s :
  (∀ e, (initialize_model sess model dir expect s).1 = inl e
        ↔ expect = true ∧ checkpoint_found dir (st_world s) = false
          ∧ e = Exception ("There is no saved checkpoint at " ++ dir))
  ∧ st_flags (initialize_model sess model dir expect s).2 = st_flags s.
Proof.
  destruct (initialize_model_cases sess model dir expect s)
    as [(p & Hckpt & Hfound & ->) | (Hmiss & ->)].
  - split; [| done]. intros e. simpl. split; [done |].
    intros (_ & Hno & _). congruence.
  - destruct expect; simpl.
    + split; [| done]. intros e. split.
      * by intros [= <-].
      * by intros (_ & _ & ->).
    + split; [| done]. intros e. split; [done |]. by intros ([=] & _).
Qed.

End InitializeModelOutcome.

(** ** The flags that [main] sets *)

Section FlagsSet.
Context `{C : Collaborators}.

Lemma flags_restore flags :
  FLAGS.set_train_dir (FLAGS.train_dir flags)
    (FLAGS.set_glove_path (FLAGS.glove_path flags) (setup_flags flags))
  = flags.
Proof. by destruct flags. Qed.

Lemma flags_restore_id flags :
  FLAGS.set_train_dir (FLAGS.train_dir flags)
    (FLAGS.set_glove_path (FLAGS.glove_path flags) flags)
  = flags.
Proof. by destruct flags. Qed.

Lemma run_flags flags w argv :
  st_flags (run flags w argv).2 = flags
  ∨ st_flags (run flags w argv).2 = setup_flags flags.
Proof.
  destruct (decide (length argv = 1%nat)) as [Hargv | Hargv].
  - destruct (decide (sys_version_major = 3)) as [Hpy | Hpy].
    + destruct (lacks_name flags) eqn:Hlacks.
      * left. by rewrite run_lacks_name.
      * right. by destruct (run_keeps flags w argv Hargv Hpy Hlacks).
    + left. unfold run, main.
      rewrite bool_decide_eq_false_2 by (rewrite Hargv; tauto).
      by rewrite bool_decide_eq_true_2.
  - left. unfold run, main. by rewrite bool_decide_eq_true_2.
Qed.

(** Whatever the mode and however the run ends, [main] changes no flag
    other than [train_dir] and [glove_path]: putting the two given values
    back into the flags the run ends with gives the flags it started
    with. *)
Theorem main_sets_two_flags flags w argv :
  FLAGS.set_train_dir (FLAGS.train_dir flags)
    (FLAGS.set_glove_path (FLAGS.glove_path flags)
       (st_flags (run flags w argv).2))
  = flags.
Proof.
  destruct (run_flags flags w argv) as [-> | ->];
    [apply flags_restore_id | apply flags_restore].
Qed.

Lemma default_data_dir_shape :
  Py.truthy DEFAULT_DATA_DIR = true
  ∧ Py.ends_with_sep DEFAULT_DATA_DIR = false.
Proof.
  unfold DEFAULT_DATA_DIR, Py.os_path_join. simpl.
  destruct (negb (Py.truthy MAIN_DIR) || Py.ends_with_sep MAIN_DIR).
  - split; [by destruct MAIN_DIR |].
    induction MAIN_DIR as [|a [|b rest] IH]; simpl in *; done.
  - split; [by destruct MAIN_DIR |].
    induction MAIN_DIR as [|a [|b rest] IH]; simpl in *; done.
Qed.

(** Every run that gets past the check of line 135 loads the embeddings,
    as its first call, from [FLAGS.glove_path] if given and otherwise
    from the file [glove.42B.<embedding_size>d.txt] of the data directory
    of the repository ([DEFAULT_DATA_DIR], not [FLAGS.data_dir]), with
    [FLAGS.embedding_size] as dimension; [FLAGS.glove_path] holds that
    path from then on. *)
Theorem glove_path_default flags w argv :
  length argv = 1%nat → sys_version_major = 3 → lacks_name flags = false →
  (∃ rest,
     st_trace (run flags w argv).2
     = Stdout banner
       :: Get_glove (resolved_glove_path flags) (FLAGS.embedding_size flags)
       :: rest)
  ∧ FLAGS.glove_path (st_flags (run flags w argv).2)
    = resolved_glove_path flags
  ∧ (FLAGS.glove_path flags = "" →
     resolved_glove_path flags
     = (DEFAULT_DATA_DIR ++ "/glove.42B."
        ++ Py.str_of_int (FLAGS.embedding_size flags) ++ "d.txt")%string).
Proof.
  intros Hargv Hpy Hlacks.
  assert (FLAGS.glove_path (setup_flags flags) = resolved_glove_path flags)
    as Hpath.
  { unfold setup_flags, with_glove_path, with_train_dir, resolved_glove_path,
      Py.or_else. mproj.
    by destruct (FLAGS.glove_path flags). }
  destruct (run_keeps flags w argv Hargv Hpy Hlacks) as (-> & evs & -> & _).
  split; [| split].
  - unfold preamble. rewrite Hpath. eexists. reflexivity.
  - exact Hpath.
  - intros Hnone. unfold resolved_glove_path.
    rewrite Hnone, bool_decide_eq_true_2 by done.
    destruct default_data_dir_shape as [Htruthy Hsep].
    unfold Py.os_path_join. simpl Py.starts_with_sep.
    by rewrite Htruthy, Hsep.
Qed.

(** A value of [FLAGS.mode] other than the three modes is reported only
    at the end of the dispatch: a run with such a mode and an experiment
    name or train directory raises the exception that quotes the mode
    after the embeddings were loaded and the model was constructed, the
    trace being exactly the banner, the GloVe load and the construction;
    without a name or directory it is the check of line 135 that raises,
    and the mode is never looked at. *)
Theorem unexpected_mode flags w argv :
  length argv = 1%nat → sys_version_major = 3 →
  FLAGS.mode flags ≠ "train" → FLAGS.mode flags ≠ "show_examples" →
  FLAGS.mode flags ≠ "official_eval" →
  (lacks_name flags = false →
   ∃ model w',
     run flags w argv
     = (inl (Exception ("Unexpected value of FLAGS.mode: "
                        ++ FLAGS.mode flags)),
        mkState _ (setup_flags flags) w' (preamble flags model)))
  ∧ (lacks_name flags = true →
     run flags w argv
     = (inl (Exception
               "You need to specify either --experiment_name or --train_dir"),
        mkState _ flags w [Stdout banner])).
Proof.
  intros Hargv Hpy Htrain Hshow Heval. split.
  - intros Hlacks. rewrite run_setup by done.
    rewrite !bool_decide_eq_false_2 by done.
    exists (model_of flags w).1, (model_of flags w).2. reflexivity.
  - intros Hlacks. by apply run_lacks_name.
Qed.

End FlagsSet.

Lemma glove_path_default_witness :
  FLAGS.glove_path
    (st_flags (run (C := untrained)
                 (mode_flags "train" "baseline" "" true) tt ["main.py"]).2)
  = "./data/glove.42B.300d.txt".
Proof.
  destruct (glove_path_default (C := untrained)
              (mode_flags "train" "baseline" "" true) tt ["main.py"]
              eq_refl eq_refl eq_refl) as (_ & -> & Hdefault).
  rewrite Hdefault by reflexivity. reflexivity.
Defined.

Lemma unexpected_mode_witness :
  (run (C := untrained) (mode_flags "evaluate" "baseline" "" true) tt
     ["main.py"]).1
  = inl (Exception "Unexpected value of FLAGS.mode: evaluate")
  ∧ (run (C := untrained) (mode_flags "evaluate" "" "" true) tt
       ["main.py"]).1
    = inl (Exception
             "You need to specify either --experiment_name or --train_dir").
Proof.
  split.
  - destruct (unexpected_mode (C := untrained)
                (mode_flags "evaluate" "baseline" "" true) tt ["main.py"]
                eq_refl eq_refl) as [Hnamed _];
      [discriminate | discriminate | discriminate |].
    destruct Hnamed as (model & w' & ->); reflexivity.
  - destruct (unexpected_mode (C := untrained)
                (mode_flags "evaluate" "" "" true) tt ["main.py"]
                eq_refl eq_refl) as [_ Hunnamed];
      [discriminate | discriminate | discriminate |].
    rewrite Hunnamed by reflexivity. reflexivity.
Defined.

(** ** The train and show_examples modes *)

Section TrainAndInspect.
Context `{C : Collaborators}.

Lemma run_makedirs_if_missing path s :
  makedirs_if_missing path s
  = (inr tt,
     mkState _ (st_flags s) (ensure_dir path (st_world s))
       (st_trace s ++ ensure_dir_events path (st_world s))).
Proof.
  unfold makedirs_if_missing, makedirs, ensure_dir_events, ensure_dir. mfast.
  destruct (os_path_exists path (st_world s)); mfast.
  - rewrite app_nil_r. by destruct s.
  - reflexivity.
Qed.

Lemma initialize_model_optional sess model dir s :
  st_trace (initialize_model sess model dir false s).2
  = st_trace s ++ optional_load_events (st_flags s) sess dir (st_world s).
Proof.
  unfold optional_load_events.
  destruct (initialize_model_cases sess model dir false s)
    as [(p & Hckpt & Hfound & ->) | (Hmiss & ->)].
  - by rewrite Hckpt, Hfound.
  - rewrite Hmiss. by destruct (tf_train_get_checkpoint_state dir (st_world s)).
Qed.

(** What a train-mode run with an experiment name or train directory has
    done when it calls [qa_model.train], in this order: the preamble; the
    train directory made if it is missing; the log file [log.txt]
    attached and the flags, already holding the resolved [train_dir] and
    [glove_path], dumped to [flags.json], both inside the train
    directory; the two best-checkpoint directories made, each if it is
    missing; one session entered; and in it a load from the train
    directory that is not required: the restore of the checkpoint if the
    directory holds one, the initialisation with fresh parameters if it
    holds none.  Then [train] is called.  Nothing is said of what follows
    the call. *)
Theorem train_mode_until_train flags w argv :
  length argv = 1%nat → sys_version_major = 3 → lacks_name flags = false →
  FLAGS.mode flags = "train" →
  let td := FLAGS.train_dir (with_train_dir flags) in
  let w0 := (model_of flags w).2 in
  let w1 :=
    json_dump_flags (Py.os_path_join td "flags.json") (setup_flags flags)
      (logging_add_file_handler (Py.os_path_join td "log.txt")
         (ensure_dir td w0)) in
  let w2 := ensure_dir (bestmodel_dir flags) w1 in
  let w3 := ensure_dir (ema_bestmodel_dir flags) w2 in
  let sess := (tf_Session w3).1 in
  ∃ rest,
    st_trace (run flags w argv).2
    = preamble flags (model_of flags w).1
      ++ ensure_dir_events td w0
      ++ [Logging_add_file_handler (Py.os_path_join td "log.txt");
          Json_dump_flags (Py.os_path_join td "flags.json")
            (setup_flags flags)]
      ++ ensure_dir_events (bestmodel_dir flags) w1
      ++ ensure_dir_events (ema_bestmodel_dir flags) w2
      ++ [Session_enter sess]
      ++ optional_load_events flags sess td (tf_Session w3).2
      ++ Train sess :: rest.
Proof.
  intros Hargv Hpy Hlacks Hmode td w0 w1 w2 w3 sess.
  rewrite run_setup by done. rewrite Hmode, bool_decide_eq_true_2 by done.
  unfold train_mode, setup_state.
  rewrite run_bind, run_get_flags. mproj.
  rewrite run_bind, run_makedirs_if_missing. mproj.
  unfold add_file_handler, dump_flags. mfast.
  rewrite run_makedirs_if_missing. mproj.
  rewrite run_bind, run_makedirs_if_missing. mproj.
  unfold with_session, train. mfast.
  match goal with
  | |- context [initialize_model ?a ?b ?c ?d ?s1] =>
      pose proof (initialize_model_optional a b c s1) as Hinit;
      destruct (initialize_model_cases a b c d s1)
        as [(p & _ & _ & Hrun) | (_ & Hrun)];
      rewrite Hrun in Hinit |- *
  end; mfast; mproj_in Hinit; rewrite Hinit;
    exists [Session_exit sess]; rewrite <- !app_assoc; reflexivity.
Qed.

(** In show_examples mode the load is required and the evaluation comes
    after it.  A run with an experiment name or train directory opens one
    session and looks into the directory that [load_ema_checkpoint]
    selects.  If that directory holds a checkpoint, the checkpoint is
    restored, [check_f1_em] is called once, on the dev files with ten
    samples printed, the session is closed and the run returns.  If it
    holds none, the run raises the exception that names the directory:
    nothing is restored or initialised, [check_f1_em] is never called, and
    the session is closed all the same. *)
Theorem show_examples_by_checkpoint flags w argv :
  length argv = 1%nat → sys_version_major = 3 → lacks_name flags = false →
  FLAGS.mode flags = "show_examples" →
  let dir := inspect_dir flags in
  let model := (model_of flags w).1 in
  let sess := (tf_Session (model_of flags w).2).1 in
  let w1 := (tf_Session (model_of flags w).2).2 in
  (checkpoint_found dir w1 = true →
   ∃ p,
     tf_train_get_checkpoint_state dir w1 = Some p
     ∧ run flags w argv
       = (inr tt,
          mkState _ (setup_flags flags)
            (tf_Session_exit sess
               (qa_model_check_f1_em model sess
                  (Py.os_path_join (FLAGS.data_dir flags) "dev.context")
                  (Py.os_path_join (FLAGS.data_dir flags) "dev.question")
                  (Py.os_path_join (FLAGS.data_dir flags) "dev.span")
                  "dev" 10 true
                  (restore_world flags model sess p w1)))
            (preamble flags model
             ++ [Session_enter sess]
             ++ load_events flags sess dir p
             ++ [Check_f1_em sess; Session_exit sess])))
  ∧ (checkpoint_found dir w1 = false →
     run flags w argv
     = (inl (Exception ("There is no saved checkpoint at " ++ dir)),
        mkState _ (setup_flags flags) (tf_Session_exit sess w1)
          (preamble flags model
           ++ [Session_enter sess] ++ miss_events dir
           ++ [Session_exit sess]))).
Proof.
  intros Hargv Hpy Hlacks Hmode dir model sess w1.
  rewrite run_setup by done. rewrite Hmode.
  rewrite bool_decide_eq_false_2, bool_decide_eq_true_2 by done.
  unfold show_examples, setup_state, with_session, check_f1_em. mfast.
  change (FLAGS.load_ema_checkpoint (setup_flags flags))
    with (FLAGS.load_ema_checkpoint flags).
  fold model sess w1.
  assert (∀ s,
            (if FLAGS.load_ema_checkpoint flags
             then initialize_model sess model
                    (Py.os_path_join (FLAGS.train_dir (setup_flags flags))
                       "ema_best_checkpoint") true
             else initialize_model sess model
                    (Py.os_path_join (FLAGS.train_dir (setup_flags flags))
                       "best_checkpoint") true) s
            = initialize_model sess model dir true s) as Hsel.
  { intros s. unfold dir, inspect_dir.
    by destruct (FLAGS.load_ema_checkpoint flags). }
  rewrite Hsel. clear Hsel.
  split.
  - intros Hfound. pose proof Hfound as Hckpt.
    unfold checkpoint_found in Hckpt.
    destruct (tf_train_get_checkpoint_state dir w1) as [p|] eqn:Hstate;
      [| discriminate].
    exists p. split; [reflexivity |].
    rewrite (initialize_model_found _ _ _ _ _ p); [| exact Hstate | exact Hckpt].
    mfast. rewrite <- !app_assoc. reflexivity.
  - intros Hmiss. rewrite initialize_model_missing by exact Hmiss.
    mfast. rewrite <- !app_assoc. reflexivity.
Qed.

End TrainAndInspect.

Lemma train_mode_until_train_witness :
  ∃ rest,
    st_trace (run (C := untrained) (mode_flags "train" "baseline" "" true) tt
                ["main.py"]).2
    = preamble (C := untrained) (mode_flags "train" "baseline" "" true) tt
      ++ [Os_makedirs (C := untrained) "./experiments/baseline";
          Logging_add_file_handler "./experiments/baseline/log.txt";
          Json_dump_flags "./experiments/baseline/flags.json"
            (setup_flags (C := untrained)
               (mode_flags "train" "baseline" "" true));
          Os_makedirs "./experiments/baseline/best_checkpoint";
          Os_makedirs "./experiments/baseline/ema_best_checkpoint";
          Session_enter (C := untrained) tt]
      ++ miss_events (C := untrained) "./experiments/baseline"
      ++ fresh_events (C := untrained) tt "./experiments/baseline" tt
      ++ Train (C := untrained) tt :: rest.
Proof.
  exact (train_mode_until_train (C := untrained)
           (mode_flags "train" "baseline" "" true) tt ["main.py"]
           eq_refl eq_refl eq_refl eq_refl).
Defined.

Lemma show_examples_by_checkpoint_witness :
  (run (C := untrained) (mode_flags "show_examples" "baseline" "" true) tt
     ["main.py"]).1
  = inl (Exception ("There is no saved checkpoint at "
                    ++ "./experiments/baseline/ema_best_checkpoint"))
  ∧ (run (C := trained) (mode_flags "show_examples" "baseline" "" false) tt
       ["main.py"]).1
    = inr tt.
Proof.
  split.
  - destruct (show_examples_by_checkpoint (C := untrained)
                (mode_flags "show_examples" "baseline" "" true) tt
                ["main.py"] eq_refl eq_refl eq_refl eq_refl)
      as [_ Hmiss].
    rewrite Hmiss by reflexivity. reflexivity.
  - destruct (show_examples_by_checkpoint (C := trained)
                (mode_flags "show_examples" "baseline" "" false) tt
                ["main.py"] eq_refl eq_refl eq_refl eq_refl)
      as [Hfound _].
    destruct Hfound as (p & _ & ->); reflexivity.
Defined.

(** ** What a run touches *)

Section Footprint.
Context `{C : Collaborators}.

Lemma keeps_mono (f0 : FLAGS.t) (P P' : event → Prop) {A} (m : M A) (Q : A → Prop) :
  (∀ ev, P ev → P' ev) → keeps f0 P m Q → keeps f0 P' m Q.
Proof.
  intros HP Hm s Hs. destruct (Hm s Hs) as (Hf & (evs & Ht & Hevs) & HQ).
  split; [done |]. split; [| done].
  exists evs. split; [done |]. by eapply Forall_impl.
Qed.

Lemma load_events_load flags sess dir p :
  Forall load_event (load_events flags sess dir p).
Proof.
  unfold load_events, restore_event.
  destruct (FLAGS.load_ema_checkpoint flags); by repeat constructor.
Qed.

Lemma keeps_load (f0 : FLAGS.t) sess model dir expect :
  keeps f0 (λ ev, if expect : bool then load_event ev else init_event ev)
        (initialize_model sess model dir expect) (λ _, True).
Proof.
  intros s Hs.
  destruct (initialize_model_cases sess model dir expect s)
    as [(p & Hckpt & Hfound & ->) | (Hmiss & ->)].
  - split; [done |]. split; [| done].
    exists (load_events (st_flags s) sess dir p). split; [done |].
    pose proof (load_events_load (st_flags s) sess dir p) as Hload.
    destruct expect; [done |].
    eapply Forall_impl; [exact Hload |]. by intros [].
  - destruct expect.
    + split; [done |]. split; [| done].
      exists (miss_events dir). split; [done |]. by repeat constructor.
    + split; [done |]. split; [| done].
      exists (miss_events dir ++ fresh_events sess dir (st_world s)).
      split; [done |]. by repeat constructor.
Qed.

Lemma keeps_required_load (f0 : FLAGS.t) (P : event → Prop) sess model dir :
  (∀ ev, load_event ev → P ev) →
  keeps f0 P (initialize_model sess model dir true) (λ _, True).
Proof.
  intros HP. eapply keeps_mono; [exact HP |].
  apply (keeps_load f0 sess model dir true).
Qed.

Lemma keeps_any_load (f0 : FLAGS.t) (P : event → Prop) sess model dir expect :
  (∀ ev, init_event ev → P ev) →
  keeps f0 P (initialize_model sess model dir expect) (λ _, True).
Proof.
  intros HP. eapply keeps_mono; [| apply (keeps_load f0 sess model dir expect)].
  intros ev Hev. apply HP. destruct expect; [| done]. by destruct ev.
Qed.

Section OfficialEval.
Variable flags : FLAGS.t.

Lemma load_infer ev : load_event ev → infer_event flags ev.
Proof. by destruct ev. Qed.

Lemma infer_eval ev : infer_event flags ev → eval_event flags ev.
Proof. by intros []. Qed.

Lemma keeps_pass_infer model word2id pos ne dir :
  keeps (setup_flags flags) (infer_event flags)
        (ensemble_pass model word2id pos ne dir) (λ _, True).
Proof.
  unfold ensemble_pass.
  eapply keeps_bind; [apply keeps_get_flags | intros ? ->].
  do 2 (eapply keeps_bind; [keeps_auto; done | intros ? _]).
  unfold with_session.
  eapply keeps_bind; [keeps_auto; done | intros sess _].
  eapply keeps_bind; [keeps_auto; done | intros _ _].
  apply keeps_finally; [| keeps_auto; done].
  eapply keeps_bind;
    [apply keeps_required_load, load_infer | intros _ _].
  keeps_auto; done.
Qed.

Lemma keeps_passes_infer model word2id pos ne dirs acc :
  keeps (setup_flags flags) (infer_event flags)
        (ensemble_passes model word2id pos ne dirs acc) (λ _, True).
Proof.
  revert acc. induction dirs as [|dir dirs IH]; intros acc; simpl.
  - by apply keeps_ret.
  - eapply keeps_bind; [apply keeps_pass_infer | intros r _]. apply IH.
Qed.

Lemma keeps_write_eval answers :
  keeps (setup_flags flags) (eval_event flags) (write_predictions answers)
        (λ _, True).
Proof. unfold write_predictions. keeps_auto; done. Qed.

Lemma keeps_ensemble_eval model word2id pos ne :
  keeps (setup_flags flags) (eval_event flags)
        (official_eval_ensemble model word2id pos ne) (λ _, True).
Proof.
  unfold official_eval_ensemble.
  eapply keeps_bind; [apply keeps_get_flags | intros ? ->].
  eapply keeps_bind;
    [eapply keeps_mono; [apply infer_eval | apply keeps_passes_infer]
    | intros partials _].
  do 3 (eapply keeps_bind; [keeps_auto; done | intros ? _]).
  apply keeps_write_eval.
Qed.

Lemma keeps_single_eval model word2id pos ne :
  keeps (setup_flags flags) (eval_event flags)
        (official_eval_single model word2id pos ne) (λ _, True).
Proof.
  unfold official_eval_single.
  eapply keeps_bind; [apply keeps_get_flags | intros ? ->].
  apply keeps_if; intros _; [| apply keeps_raise].
  do 2 (eapply keeps_bind; [keeps_auto; done | intros ? _]).
  unfold with_session.
  eapply keeps_bind; [keeps_auto; done | intros sess _].
  eapply keeps_bind; [keeps_auto; done | intros _ _].
  apply keeps_finally; [| keeps_auto; done].
  eapply keeps_bind;
    [apply keeps_required_load; intros ev Hev;
     apply infer_eval, load_infer, Hev
    | intros _ _].
  eapply keeps_bind; [keeps_auto; done | intros d _].
  apply keeps_write_eval.
Qed.

Lemma keeps_official_eval_eval model word2id :
  keeps (setup_flags flags) (eval_event flags) (official_eval model word2id)
        (λ _, True).
Proof.
  unfold official_eval.
  eapply keeps_bind; [apply keeps_get_flags | intros ? ->].
  do 2 (apply keeps_if; intros _; [apply keeps_raise |]).
  eapply keeps_bind; [keeps_auto; done | intros lines _].
  apply keeps_if; intros _.
  - apply keeps_ensemble_eval.
  - apply keeps_single_eval.
Qed.

End OfficialEval.

(** An official_eval run, whichever its sub-mode and however it ends,
    does after the construction of the model nothing but: print, read the
    tag file [main_dir/pos_tags.txt], read [json_in_path], build batchers
    on [data_dir/elmo_voca.txt], enter and leave sessions, look up and
    restore checkpoints, infer, aggregate, and open and write
    [json_out_path].  It makes no directory, attaches no log file, dumps
    no flags, never trains or scores, writes to no other file, and never
    initialises fresh parameters. *)
Theorem official_eval_footprint flags w argv :
  length argv = 1%nat → sys_version_major = 3 →
  FLAGS.mode flags = "official_eval" →
  ∃ evs,
    st_trace (run flags w argv).2 = preamble flags (model_of flags w).1 ++ evs
    ∧ Forall (eval_event flags) evs
    ∧ ∀ ev path, ev ∈ evs → writes_to ev = Some path →
                 path = FLAGS.json_out_path flags.
Proof.
  intros Hargv Hpy Hmode. rewrite run_official_eval by done.
  destruct (keeps_official_eval_eval flags (model_of flags w).1
              (word2id_of flags w) (setup_state flags w) eq_refl)
    as (_ & (evs & Ht & Hevs) & _).
  exists evs. split; [exact Ht |]. split; [exact Hevs |].
  intros ev path Hin Hwrites. rewrite Forall_forall in Hevs.
  specialize (Hevs ev Hin). destruct ev; simpl in *; try done; congruence.
Qed.

End Footprint.

Lemma official_eval_footprint_witness :
  ∃ evs,
    st_trace (run (C := deployed) (eval_flags "dev.json" "ckpts" "ensemble")
                tt ["main.py"]).2
    = preamble (C := deployed) (eval_flags "dev.json" "ckpts" "ensemble") tt
      ++ evs
    ∧ Forall (eval_event (C := deployed)
                (eval_flags "dev.json" "ckpts" "ensemble")) evs.
Proof.
  destruct (official_eval_footprint (C := deployed)
              (eval_flags "dev.json" "ckpts" "ensemble") tt ["main.py"]
              eq_refl eq_refl eq_refl) as (evs & Ht & Hevs & _).
  exists evs. split; [exact Ht | exact Hevs].
Defined.

(** ** Sessions are released *)

Section Sessions.
Context `{C : Collaborators}.

Lemma bracketed_app t1 t2 :
  bracketed t1 → bracketed t2 → bracketed (t1 ++ t2).
Proof.
  intros H1 H2. induction H1 as [|ev t Hev _ IH|sess body t Hbody _ IH].
  - done.
  - simpl. by constructor.
  - simpl. rewrite <- app_assoc. simpl. by constructor.
Qed.

Lemma bracketed_of_quiet evs :
  Forall (λ ev, session_event ev = false) evs → bracketed evs.
Proof. induction 1; by constructor. Qed.

Lemma load_quiet ev : init_event ev → session_event ev = false.
Proof. by destruct ev. Qed.

Lemma brackets_bind (f0 : FLAGS.t) {A B} (m : M A) (k : A → M B) :
  brackets f0 m → (∀ a, brackets f0 (k a)) → brackets f0 (bind m k).
Proof.
  intros Hm Hk s Hs. destruct (Hm s Hs) as (Hf & evs & Ht & Hevs).
  rewrite run_bind. destruct (m s) as [[e|a] s1]; simpl in *.
  - split; [done |]. by exists evs.
  - destruct (Hk a s1 Hf) as (Hf' & evs' & Ht' & Hevs').
    split; [done |]. exists (evs ++ evs').
    rewrite Ht', Ht, app_assoc. split; [done |]. by apply bracketed_app.
Qed.

Lemma brackets_if (f0 : FLAGS.t) {A} (b : bool) (m1 m2 : M A) :
  brackets f0 m1 → brackets f0 m2 → brackets f0 (if b then m1 else m2).
Proof. by destruct b. Qed.

Lemma brackets_quiet (f0 : FLAGS.t) {A} (m : M A) (Q : A → Prop) :
  keeps f0 (λ ev, session_event ev = false) m Q → brackets f0 m.
Proof.
  intros Hm s Hs. destruct (Hm s Hs) as (Hf & (evs & Ht & Hevs) & _).
  split; [done |]. exists evs. split; [done |]. by apply bracketed_of_quiet.
Qed.

Lemma brackets_with_session (f0 : FLAGS.t) {A} (body : Session → M A)
    (Q : A → Prop) :
  (∀ sess, keeps f0 (λ ev, session_event ev = false) (body sess) Q) →
  brackets f0 (with_session body).
Proof.
  intros Hbody s Hs. unfold with_session. mfast.
  match goal with
  | |- context [body ?sess ?s1] =>
      destruct (Hbody sess s1 Hs) as (Hf & (evs & Ht & Hevs) & _);
      destruct (body sess s1) as [r s'] eqn:Hrun
  end.
  mfast. simpl in *. split; [done |].
  exists (Session_enter (tf_Session (st_world s)).1
          :: evs ++ [Session_exit (tf_Session (st_world s)).1]).
  split.
  - rewrite Ht. rewrite <- !app_assoc. reflexivity.
  - apply bracketed_session; [done | constructor].
Qed.

Ltac quiet_load :=
  first [ apply keeps_any_load, load_quiet
        | apply keeps_if; intros _; apply keeps_any_load, load_quiet ].

Lemma brackets_train_mode (f0 : FLAGS.t) model best ema p1 p2 p3 p4 p5 p6 :
  brackets f0 (train_mode model best ema p1 p2 p3 p4 p5 p6).
Proof.
  unfold train_mode.
  apply brackets_bind; [eapply brackets_quiet, keeps_get_flags | intros FLAGS].
  do 5 (apply brackets_bind;
        [eapply brackets_quiet with (Q := λ _, True); keeps_auto; done
        | intros _]).
  apply brackets_with_session with (Q := λ _, True). intros sess.
  eapply keeps_bind; [quiet_load | intros _ _]. keeps_auto; done.
Qed.

Lemma brackets_show_examples (f0 : FLAGS.t) model best ema p1 p2 p3 :
  brackets f0 (show_examples model best ema p1 p2 p3).
Proof.
  unfold show_examples.
  apply brackets_with_session with (Q := λ _, True). intros sess.
  eapply keeps_bind; [apply keeps_get_flags | intros ? ->].
  eapply keeps_bind; [quiet_load | intros _ _]. keeps_auto; done.
Qed.

Lemma quiet_write_predictions (f0 : FLAGS.t) answers :
  keeps f0 (λ ev, session_event ev = false) (write_predictions answers)
        (λ _, True).
Proof. unfold write_predictions. keeps_auto; done. Qed.

Lemma brackets_ensemble_pass (f0 : FLAGS.t) model word2id pos ne dir :
  brackets f0 (ensemble_pass model word2id pos ne dir).
Proof.
  unfold ensemble_pass.
  apply brackets_bind; [eapply brackets_quiet, keeps_get_flags | intros FLAGS].
  do 2 (apply brackets_bind;
        [eapply brackets_quiet with (Q := λ _, True); keeps_auto; done
        | intros ?]).
  apply brackets_with_session with (Q := λ _, True). intros sess.
  eapply keeps_bind; [quiet_load | intros _ _]. keeps_auto; done.
Qed.

Lemma brackets_ensemble_passes (f0 : FLAGS.t) model word2id pos ne dirs acc :
  brackets f0 (ensemble_passes model word2id pos ne dirs acc).
Proof.
  revert acc. induction dirs as [|dir dirs IH]; intros acc; simpl.
  - eapply brackets_quiet with (Q := λ _, True). by apply keeps_ret.
  - apply brackets_bind; [apply brackets_ensemble_pass | intros r]. apply IH.
Qed.

Lemma brackets_official_eval (f0 : FLAGS.t) model word2id :
  brackets f0 (official_eval model word2id).
Proof.
  unfold official_eval.
  apply brackets_bind; [eapply brackets_quiet, keeps_get_flags | intros FLAGS].
  do 2 (apply brackets_if;
        [eapply brackets_quiet with (Q := λ _, True), keeps_raise |]).
  apply brackets_bind;
    [eapply brackets_quiet with (Q := λ _, True); keeps_auto; done
    | intros lines].
  apply brackets_if.
  - unfold official_eval_ensemble.
    apply brackets_bind;
      [eapply brackets_quiet, keeps_get_flags | intros FLAGS'].
    apply brackets_bind; [apply brackets_ensemble_passes | intros partials].
    do 3 (apply brackets_bind;
          [eapply brackets_quiet with (Q := λ _, True); keeps_auto; done
          | intros ?]).
    eapply brackets_quiet, quiet_write_predictions.
  - unfold official_eval_single.
    apply brackets_bind;
      [eapply brackets_quiet, keeps_get_flags | intros FLAGS'].
    apply brackets_if;
      [| eapply brackets_quiet with (Q := λ _, True), keeps_raise].
    do 2 (apply brackets_bind;
          [eapply brackets_quiet with (Q := λ _, True); keeps_auto; done
          | intros ?]).
    apply brackets_with_session with (Q := λ _, True). intros sess.
    eapply keeps_bind; [quiet_load | intros _ _].
    eapply keeps_bind; [keeps_auto; done | intros d _].
    apply quiet_write_predictions.
Qed.

(** Every run of [main], in any mode and however it ends, leaves every
    session it entered: in its trace each [Session_enter] is followed,
    before any other session event, by the [Session_exit] of the same
    session, and no exit comes without its entry.  In particular a
    required load that fails, or an output that cannot be encoded, does
    not leave a session open, and no two sessions are ever open
    together. *)
Theorem sessions_released flags w argv :
  bracketed (st_trace (run flags w argv).2).
Proof.
  destruct (decide (length argv = 1%nat)) as [Hargv | Hargv].
  - destruct (decide (sys_version_major = 3)) as [Hpy | Hpy].
    + destruct (lacks_name flags) eqn:Hlacks.
      * rewrite run_lacks_name by done. by repeat constructor.
      * rewrite run_setup by done.
        match goal with
        | |- context [?prog (setup_state flags w)] =>
            assert (brackets (setup_flags flags) prog) as Hprog
        end.
        { apply brackets_if; [apply brackets_train_mode |].
          apply brackets_if; [apply brackets_show_examples |].
          apply brackets_if; [apply brackets_official_eval |].
          eapply brackets_quiet with (Q := λ _, True), keeps_raise. }
        destruct (Hprog (setup_state flags w) eq_refl) as (_ & evs & -> & Hevs).
        apply bracketed_app; [| done]. by repeat constructor.
    + unfold run, main.
      rewrite bool_decide_eq_false_2 by (rewrite Hargv; tauto).
      rewrite bool_decide_eq_true_2 by done. constructor.
  - unfold run, main. rewrite bool_decide_eq_true_2 by done. constructor.
Qed.

End Sessions.

(** ** The output file of a failing official_eval run *)

Section FailingEvaluation.
Context `{C : Collaborators}.

Lemma infer_unwritten flags ev : infer_event flags ev → unwritten ev.
Proof. intros [_ Hev]. by destruct ev. Qed.

Lemma infer_untouched flags ev : infer_event flags ev → output_untouched ev.
Proof. by intros [_ Hev]. Qed.

Lemma load_unwritten ev : load_event ev → unwritten ev.
Proof. by destruct ev. Qed.

Lemma ensemble_failure flags model word2id pos ne s e s' :
  st_flags s = setup_flags flags →
  official_eval_ensemble model word2id pos ne s = (inl e, s') →
  ∃ evs,
    st_trace s' = st_trace s ++ evs
    ∧ Forall unwritten evs
    ∧ (e ≠ UnicodeEncodeError → Forall output_untouched evs).
Proof.
  intros Hs. unfold official_eval_ensemble.
  rewrite run_bind, run_get_flags. mproj. rewrite run_bind.
  destruct (keeps_passes_infer flags model word2id pos ne
              (checkpoint_dirs (FLAGS.ckpt_load_dir (st_flags s))) [] s Hs)
    as (Hf & (evs & Ht & Hevs) & _).
  destruct (ensemble_passes model word2id pos ne
              (checkpoint_dirs (FLAGS.ckpt_load_dir (st_flags s))) [] s)
    as [[e1|partials] s1]; simpl in Hf, Ht.
  - intros Hrun. apply pair_equal_spec in Hrun as [_ <-].
    exists evs. split; [done |]. split.
    + eapply Forall_impl; [exact Hevs | apply infer_unwritten].
    + intros _. eapply Forall_impl; [exact Hevs | apply infer_untouched].
  - unfold call_get_json_data, new_Batcher, call_generate_ensemble_answers.
    mfast.
    match goal with
    | |- context [write_predictions ?d ?s2] =>
        pose proof (write_predictions_cases d s2) as Hw;
        destruct (Json.utf8_encode (Json.dumps d)) as [bytes|]
    end; mproj_in Hw; rewrite Hw; [intros [=] |].
    intros Hrun. apply pair_equal_spec in Hrun as [He <-].
    injection He as <-. mproj.
    eexists (evs ++ _). rewrite Ht, <- !app_assoc.
    split; [reflexivity |]. split; [| done].
    apply Forall_app. split.
    + eapply Forall_impl; [exact Hevs | apply infer_unwritten].
    + by repeat constructor.
Qed.

Lemma single_failure model word2id pos ne s e s' :
  official_eval_single model word2id pos ne s = (inl e, s') →
  ∃ evs,
    st_trace s' = st_trace s ++ evs
    ∧ Forall unwritten evs
    ∧ (e ≠ UnicodeEncodeError → Forall output_untouched evs).
Proof.
  unfold official_eval_single. rewrite run_bind, run_get_flags. mproj.
  destruct (bool_decide (FLAGS.single_ensemble (st_flags s) = "single")).
  - unfold new_Batcher, call_get_json_data, with_session,
      call_generate_answers.
    mfast.
    match goal with
    | |- context [initialize_model ?a ?b ?c ?d ?s1] =>
        destruct (initialize_model_cases a b c d s1)
          as [(p & Hckpt & Hfound & ->) | (Hmiss & ->)]
    end; mfast.
    + match goal with
      | |- context [write_predictions ?d ?s2] =>
          pose proof (write_predictions_cases d s2) as Hw;
          destruct (Json.utf8_encode (Json.dumps d)) as [bytes|]
      end; mproj_in Hw; rewrite Hw; mfast; [intros [=] |].
      intros Hrun. apply pair_equal_spec in Hrun as [He <-].
      injection He as <-. mproj.
      eexists. rewrite <- !app_assoc. split; [reflexivity |].
      split; [| done].
      rewrite !Forall_app. repeat split; try (by repeat constructor).
      eapply Forall_impl; [apply load_events_load | apply load_unwritten].
    + intros Hrun. apply pair_equal_spec in Hrun as [_ <-]. mproj.
      eexists. rewrite <- !app_assoc. split; [reflexivity |].
      split; [| intros _]; rewrite !Forall_app;
        repeat split; by repeat constructor.
  - rewrite run_raise. intros Hrun. apply pair_equal_spec in Hrun as [_ <-].
    exists []. rewrite app_nil_r. by repeat split.
Qed.

(** An official_eval run that raises has written nothing into the output
    file; and unless the exception is the encoder's, raised while the
    predictions are being written, it has not even opened the file, so
    that a missing flag, a missing checkpoint or a wrong [single_ensemble]
    leaves an existing predictions file as it is. *)
Theorem official_eval_failure_output flags w argv e :
  length argv = 1%nat → sys_version_major = 3 →
  FLAGS.mode flags = "official_eval" →
  (run flags w argv).1 = inl e →
  Forall unwritten (st_trace (run flags w argv).2)
  ∧ (e ≠ UnicodeEncodeError →
     Forall output_untouched (st_trace (run flags w argv).2)).
Proof.
  intros Hargv Hpy Hmode. rewrite run_official_eval by done.
  unfold official_eval, setup_state. rewrite run_bind, run_get_flags. mproj.
  destruct (bool_decide (FLAGS.json_in_path (setup_flags flags) = "")).
  { rewrite run_raise. intros _. simpl.
    split; [| intros _]; by repeat constructor. }
  destruct (bool_decide (FLAGS.ckpt_load_dir (setup_flags flags) = "")).
  { rewrite run_raise. intros _. simpl.
    split; [| intros _]; by repeat constructor. }
  unfold readlines. mfast.
  match goal with
  | |- context [(if ?b then ?m1 else ?m2) ?s0] =>
      destruct ((if b then m1 else m2) s0) as [r s'] eqn:Hrun;
      assert (∀ e0, r = inl e0 →
                ∃ evs, st_trace s' = st_trace s0 ++ evs
                       ∧ Forall unwritten evs
                       ∧ (e0 ≠ UnicodeEncodeError →
                          Forall output_untouched evs)) as Hfail
  end.
  { intros e0 ->.
    destruct (bool_decide (FLAGS.single_ensemble (setup_flags flags)
                           = "ensemble")).
    - by eapply ensemble_failure.
    - by eapply single_failure. }
  simpl. intros ->. destruct (Hfail e eq_refl) as (evs & -> & Hevs & Hopen).
  simpl. split.
  - repeat (apply Forall_cons; split; [done |]). done.
  - intros He. repeat (apply Forall_cons; split; [done |]). by apply Hopen.
Qed.

End FailingEvaluation.

Lemma official_eval_failure_output_witness :
  Forall (output_untouched (C := untrained))
    (st_trace (run (C := untrained) (eval_flags "dev.json" "ckpts" "single")
                 tt ["main.py"]).2).
Proof.
  apply (official_eval_failure_output (C := untrained)
           (eval_flags "dev.json" "ckpts" "single") tt ["main.py"]
           (Exception
              "There is no saved checkpoint at ckpts/ema_best_checkpoint_1"));
    [reflexivity | reflexivity | reflexivity | reflexivity | discriminate].
Defined.
